(** * prerender: a shallow embedding of the fd/prerender middleware

    The development follows [handler.go] and [variables.go]:

    - the fragment of Go's [strings] package the handler calls;
    - [http.Header], [http.ResponseWriter] and [http.Error], after the
      documented contract of [net/http];
    - the [handler] struct, its options and the [Handler] constructor;
    - [shouldShowPrerenderedPage], [isBot], [containsIgnoredExtension];
    - [buildApiUrl] and [getPrerenderedPage];
    - [ServeHTTP].

    Functions of Go's standard library whose text is long and release
    dependent ([strings.ToLower], [url.ParseRequestURI], [URL.String], ...)
    are the fields of the class [GoLib]; the handler is verified for every
    instance.  [RefLib] is a small instance on which the examples run. *)

From Stdlib Require Import ZArith Ascii.
From stdpp Require Import base tactics option list strings gmap fin_maps.

Local Open Scope Z_scope.

(** ** Go's [strings] package *)

Module Strings.

(** [strings.HasPrefix(s, prefix)]. *)
Fixpoint HasPrefix (s prefix : string) {struct prefix} : bool :=
  match prefix, s with
  | EmptyString, _ => true
  | String _ _, EmptyString => false
  | String c prefix', String d s' =>
      if Ascii.eqb c d then HasPrefix s' prefix' else false
  end.

(** [s[n:]] for [n <= len(s)]. *)
Fixpoint skip (n : nat) (s : string) : string :=
  match n, s with
  | O, _ => s
  | S n', String _ s' => skip n' s'
  | S _, EmptyString => EmptyString
  end.

(** [strings.HasSuffix(s, suffix)]:
    [len(s) >= len(suffix) && s[len(s)-len(suffix):] == suffix]. *)
Definition HasSuffix (s suffix : string) : bool :=
  (String.length suffix <=? String.length s)%nat
  && String.eqb (skip (String.length s - String.length suffix) s) suffix.

(** [strings.Contains(s, substr)]: some position of [s] starts [substr]. *)
Fixpoint Contains (s substr : string) : bool :=
  HasPrefix s substr
  || match s with
     | EmptyString => false
     | String _ s' => Contains s' substr
     end.

End Strings.

(** The double quote character, as a string. *)
Definition DQ : string := String (Ascii.ascii_of_nat 34) EmptyString.

(** ** [net/url] *)

(** A Go [error] is observed through its [Error()] text only. *)
Abbreviation error := string (only parsing).

Module url.

(** [url.URL], with the fields [net/url] fills for a request URI. *)
Record URL : Type := mkURL {
  Scheme : string;
  Opaque : string;
  Host : string;
  Path : string;
  RawQuery : string;
  Fragment : string
}.

(** [u.Host = host] and [u.Scheme = scheme] on a [*url.URL]. *)
Definition set_Host (u : URL) (host : string) : URL :=
  mkURL (Scheme u) (Opaque u) host (Path u) (RawQuery u) (Fragment u).

Definition set_Scheme (u : URL) (scheme : string) : URL :=
  mkURL scheme (Opaque u) (Host u) (Path u) (RawQuery u) (Fragment u).

(** [url.Values], a [map[string][]string]. *)
Abbreviation Values := (gmap string (list string)) (only parsing).

End url.

(** ** The standard library the handler is linked against

    Each field is one library function the handler calls.  Their own
    definitions are long (Unicode case tables, RFC 3986 parsing, base64) and
    differ between Go releases, so the handler is verified against all of
    them at once. *)
Class GoLib : Type := {
  (** [strings.ToLower] *)
  ToLower : string → string;
  (** [textproto.CanonicalMIMEHeaderKey], applied by [Header.Get/Set/Add/Del] *)
  CanonicalMIMEHeaderKey : string → string;
  (** [url.ParseRequestURI] *)
  ParseRequestURI : string → url.URL + error;
  (** [url.Parse], called by [http.NewRequest] *)
  Parse : string → url.URL + error;
  (** the method [Query] of [url.URL] *)
  Query : url.URL → url.Values;
  (** the method [String] of [url.URL] *)
  URL_String : url.URL → string;
  (** [url.QueryEscape] *)
  QueryEscape : string → string;
  (** the credentials [SetBasicAuth] puts after the word Basic *)
  basicAuth : string → string → string;
  (** [strconv.Quote], the [%q] verb *)
  Quote : string → string
}.

(** ** [net/http] *)

Module http.

(** [http.Header], a [map[string][]string].  A nil map and an empty map
    read and range alike, both are [∅]. *)
Abbreviation Header := (gmap string (list string)) (only parsing).

Section header.
Context `{GoLib}.

(** [h.Get(key)]: the first value of the canonical key, or the empty
    string. *)
Definition Get (h : Header) (key : string) : string :=
  match h !! CanonicalMIMEHeaderKey key with
  | Some (v :: _) => v
  | _ => EmptyString
  end.

(** [h.Set(key, value)]: replaces whatever the key held. *)
Definition Set_ (h : Header) (key value : string) : Header :=
  <[CanonicalMIMEHeaderKey key := [value]]> h.

(** [h.Add(key, value)]: appends to what the key holds. *)
Definition Add (h : Header) (key value : string) : Header :=
  <[CanonicalMIMEHeaderKey key :=
      default [] (h !! CanonicalMIMEHeaderKey key) ++ [value]]> h.

(** [h.Del(key)]. *)
Definition Del (h : Header) (key : string) : Header :=
  delete (CanonicalMIMEHeaderKey key) h.

(** The values a header map holds under a key, none for a missing key. *)
Definition values (h : Header) (key : string) : list string :=
  default [] (h !! key).
End header.

(** [http.Request], inbound and outbound. *)
Module Request.
Record t : Type := mk {
  Method : string;
  URL : url.URL;
  Header : Header;
  Host : string;
  RequestURI : string
}.

(** [req.UserAgent()]. *)
Definition UserAgent `{GoLib} (req : t) : string :=
  Get (Header req) "User-Agent".

(** [req.Header.Set(key, value)]. *)
Definition Header_Set `{GoLib} (req : t) (key value : string) : t :=
  mk (Method req) (URL req) (Set_ (Header req) key value) (Host req)
    (RequestURI req).

(** [req.SetBasicAuth(username, password)]. *)
Definition SetBasicAuth `{GoLib} (req : t) (username password : string) : t :=
  Header_Set req "Authorization" ("Basic " +:+ basicAuth username password).
End Request.

(** [http.NewRequest(method, url, nil)] for a valid method: fails when
    [url.Parse] does. *)
Definition NewRequest `{GoLib} (method rawurl : string) : Request.t + error :=
  match Parse rawurl with
  | inr err => inr err
  | inl u => inl (Request.mk method u ∅ (url.Host u) EmptyString)
  end.

(** A response body: what [ioutil.ReadAll] returns on it. *)
Record ReadCloser : Type := mkBody {
  content : string;
  read_err : option error
}.

(** [http.Response]. *)
Module Response.
Record t : Type := mk {
  StatusCode : Z;
  Header : Header;
  Body : ReadCloser
}.
End Response.

(** [http.ResponseWriter], after the contract documented on the interface:
    [Header()] returns the map that [WriteHeader] will send, and
    changing the header map after a call to WriteHeader (or Write) has no
    effect (trailers apart, which no parsed header key can name).  [live] is
    the map [Header()] returns, [sent] the header the client receives, fixed
    by the first [WriteHeader]. *)
Record ResponseWriter : Type := mkResponseWriter {
  live : Header;
  wroteHeader : bool;
  status : Z;
  sent : Header;
  body : string
}.

(** A response nothing was written to yet. *)
Definition fresh : ResponseWriter := mkResponseWriter ∅ false 0 ∅ EmptyString.

(** Updating the map [rw.Header()] returns. *)
Definition with_Header (f : Header → Header) (rw : ResponseWriter)
  : ResponseWriter :=
  mkResponseWriter (f (live rw)) (wroteHeader rw) (status rw) (sent rw) (body rw).

(** [rw.WriteHeader(code)]; a second call is ignored.  The codes are those
    of a response the client returned: three digits, and of the
    informational ones only 101, which the server writes like any other. *)
Definition WriteHeader (code : Z) (rw : ResponseWriter) : ResponseWriter :=
  if wroteHeader rw then rw
  else mkResponseWriter (live rw) true code (live rw) (body rw).

(** [rw.Write(data)]; a first write sends status 200. *)
Definition Write (data : string) (rw : ResponseWriter) : ResponseWriter :=
  let rw := if wroteHeader rw then rw else WriteHeader 200 rw in
  mkResponseWriter (live rw) (wroteHeader rw) (status rw) (sent rw)
    (body rw +:+ data).

Definition StatusInternalServerError : Z := 500.

(** The line feed [fmt.Fprintln] ends its output with. *)
Definition LF : string := String (Ascii.ascii_of_nat 10) EmptyString.

(** [http.Error(w, error, code)]. *)
Definition Error `{GoLib} (err : string) (code : Z) (rw : ResponseWriter)
  : ResponseWriter :=
  let rw := with_Header (λ h, Del h "Content-Length") rw in
  let rw := with_Header (λ h, Set_ h "Content-Type" "text/plain; charset=utf-8") rw in
  let rw := with_Header (λ h, Set_ h "X-Content-Type-Options" "nosniff") rw in
  let rw := WriteHeader code rw in
  Write (err +:+ LF) rw.

End http.

(** ** What a request leaves behind *)

(** Go's [log] package: a [log.Logger], known by its prefix. *)
Module golog.
Record Logger : Type := mk { prefix : string }.
End golog.

(** The client's response, the lines handed to loggers and the lines printed
    on standard output. *)
Record World : Type := mkWorld {
  rw : http.ResponseWriter;
  logged : list (golog.Logger * string);
  stdout : list string
}.

(** An [http.Handler], through its [ServeHTTP(rw, req)]. *)
Definition AppHandler : Type := http.Request.t → World → World.

(** A statement sequence of a handler body; [None] is a nil-pointer panic. *)
Definition Action : Type := World → option World.

Definition seq (a b : Action) : Action := λ w, a w ≫= b.
Infix ">>>" := seq (at level 62, right associativity).

Definition panic : Action := λ _, None.

Definition on_rw (f : http.ResponseWriter → http.ResponseWriter) : Action :=
  λ w, Some (mkWorld (f (rw w)) (logged w) (stdout w)).

Definition Println (s : string) : Action :=
  λ w, Some (mkWorld (rw w) (logged w) (stdout w ++ [s])).

(** The test that a string is not the empty string. *)
Definition nonempty (s : string) : bool := negb (String.eqb s EmptyString).

(** ** variables.go *)

Module variables.

Definition prerenderServiceURL : string := "http://service.prerender.io/".
Definition x_PRERENDER_TOKEN : string := "X-Prerender-Token".

Definition crawlerUserAgents : list string :=
  [ "baiduspider"; "bufferbot"; "developers.google.com/+/web/snippet";
    "embedly"; "facebookexternalhit"; "linkedinbot"; "outbrain";
    "pinterest"; "quora link preview"; "rogerbot"; "showyoubot";
    "slackbot"; "twitterbot" ].

Definition extensionsToIgnore : list string :=
  [ ".ai"; ".avi"; ".css"; ".dat"; ".dmg"; ".doc"; ".doc"; ".exe"; ".flv";
    ".gif"; ".ico"; ".iso"; ".jpeg"; ".jpg"; ".js"; ".less"; ".m4a";
    ".m4v"; ".mov"; ".mp3"; ".mp4"; ".mpeg"; ".mpg"; ".pdf"; ".png";
    ".ppt"; ".psd"; ".rar"; ".rss"; ".swf"; ".tif"; ".torrent"; ".txt";
    ".wav"; ".wmv"; ".xls"; ".xml"; ".zip" ].

End variables.

(** ** handler.go: the handler and its options *)

Record handler : Type := mkHandler {
  sub : option AppHandler;
  botUserAgents : list string;
  ignoredExtension : list string;
  prerenderServiceURL : string;
  prerenderToken : string;
  prerenderUsername : string;
  prerenderPassword : string;
  log : option golog.Logger
}.

Definition Option : Type := handler → handler.

(** [Bots] replaces the list of bot User-Agents. *)
Definition Bots (userAgents : list string) : Option := λ h,
  mkHandler (sub h) userAgents (ignoredExtension h) (prerenderServiceURL h)
    (prerenderToken h) (prerenderUsername h) (prerenderPassword h) (log h).

(** [IgnoredExtensions] replaces the list of ignored extensions. *)
Definition IgnoredExtensions (exts : list string) : Option := λ h,
  mkHandler (sub h) (botUserAgents h) exts (prerenderServiceURL h)
    (prerenderToken h) (prerenderUsername h) (prerenderPassword h) (log h).

(** [ServiceURL] sets the prerender service url. *)
Definition ServiceURL (url : string) : Option := λ h,
  mkHandler (sub h) (botUserAgents h) (ignoredExtension h) url
    (prerenderToken h) (prerenderUsername h) (prerenderPassword h) (log h).

(** [ServiceToken] sets the prerender service token. *)
Definition ServiceToken (token : string) : Option := λ h,
  mkHandler (sub h) (botUserAgents h) (ignoredExtension h)
    (prerenderServiceURL h) token (prerenderUsername h) (prerenderPassword h)
    (log h).

(** [ServiceAuth] sets the prerender username and password. *)
Definition ServiceAuth (username password : string) : Option := λ h,
  mkHandler (sub h) (botUserAgents h) (ignoredExtension h)
    (prerenderServiceURL h) (prerenderToken h) username password (log h).

(** [Logger] sets a logger. *)
Definition Logger (logger : option golog.Logger) : Option := λ h,
  mkHandler (sub h) (botUserAgents h) (ignoredExtension h)
    (prerenderServiceURL h) (prerenderToken h) (prerenderUsername h)
    (prerenderPassword h) logger.

(** The options another package can build: [Option] is a function on the
    unexported [handler], so only the six constructors produce one. *)
Inductive exported : Option → Prop :=
  | exported_Bots userAgents : exported (Bots userAgents)
  | exported_IgnoredExtensions exts : exported (IgnoredExtensions exts)
  | exported_ServiceURL url : exported (ServiceURL url)
  | exported_ServiceToken token : exported (ServiceToken token)
  | exported_ServiceAuth username password :
      exported (ServiceAuth username password)
  | exported_Logger logger : exported (Logger logger).

Section constructor.
(** [http.DefaultServeMux] and [os.Getenv]. *)
Variable DefaultServeMux : AppHandler.
Variable Getenv : string → string.

(** [Handler] returns a new prerender handler; a nil [app] is [None]. *)
Definition Handler (app : option AppHandler) (options : list Option) : handler :=
  let app := match app with
             | None => Some DefaultServeMux
             | Some _ => app
             end in
  let h := mkHandler app [] [] EmptyString EmptyString EmptyString
             EmptyString None in
  (* Defaults *)
  let h := Bots variables.crawlerUserAgents h in
  let h := IgnoredExtensions variables.extensionsToIgnore h in
  let h := ServiceURL variables.prerenderServiceURL h in
  let h := let v := Getenv "PRERENDER_SERVICE_URL" in
           if nonempty v then ServiceURL v h else h in
  let h := let v := Getenv "PRERENDER_TOKEN" in
           if nonempty v then ServiceToken v h else h in
  let h := let u := Getenv "PRERENDER_USERNAME" in
           let p := Getenv "PRERENDER_PASSWORD" in
           if nonempty u || nonempty p then ServiceAuth u p h else h in
  (* User provided *)
  foldl (λ h option, option h) h options.
End constructor.

(** ** handler.go: classification, URL building, relay *)

(** The loop of [isBot] and of [containsIgnoredExtension]:
    [for _, name := range names { if strings.Contains(s, name) { return true } }
     return false]. *)
Fixpoint containsAny (s : string) (names : list string) : bool :=
  match names with
  | [] => false
  | name :: names' =>
      if Strings.Contains s name then true else containsAny s names'
  end.

(** The two loops [for key, values := range src { for _, value := range values
    { dst.f(key, value) } }] of [getPrerenderedPage], [f] being [Set] or
    [Add].  Go ranges over a map in no fixed order; the order here is the
    one of [map_fold]. *)
Definition rangeHeader (f : http.Header → string → string → http.Header)
    (src dst : http.Header) : http.Header :=
  map_fold (λ key values dst, foldl (λ dst value, f dst key value) dst values)
    dst src.

Section prerender.
Context `{GoLib}.

(** [httpClient.Do(req2)] with the client of [getPrerenderedPage], whose
    [CheckRedirect] returns [errors.New("Redirect")]: the response and the
    error of the call, either of which can be nil. *)
Variable Do : http.Request.t → option http.Response.t * option error.

Definition logf (h : handler) (line : string) : Action := λ w,
  match log h with
  | Some logger => Some (mkWorld (rw w) (logged w ++ [(logger, line)]) (stdout w))
  | None => Some w
  end.

Definition isBot (h : handler) (ua : string) : bool :=
  let ua := ToLower ua in
  containsAny ua (botUserAgents h).

Definition containsIgnoredExtension (h : handler) (path : string) : bool :=
  let path := ToLower path in
  containsAny path (ignoredExtension h).

Definition X_BUFFERBOT : string := "X-Bufferbot".
Definition ESCAPED_FRAGMENT : string := "_escaped_fragment_".

Definition shouldShowPrerenderedPage (h : handler) (req : http.Request.t) : bool :=
  let userAgent := http.Request.UserAgent req in
  let bufferAgent := http.Get (http.Request.Header req) X_BUFFERBOT in
  let isRequestingPrerenderedPage := false in
  if String.eqb userAgent EmptyString then false else
  if negb (String.eqb (http.Request.Method req) "GET") then false else
  let isRequestingPrerenderedPage :=
    match Query (http.Request.URL req) !! ESCAPED_FRAGMENT with
    | Some q => if (0 <? length q)%nat then true else isRequestingPrerenderedPage
    | None => isRequestingPrerenderedPage
    end in
  let isRequestingPrerenderedPage :=
    if isBot h userAgent then true else isRequestingPrerenderedPage in
  let isRequestingPrerenderedPage :=
    if nonempty bufferAgent then true else isRequestingPrerenderedPage in
  if containsIgnoredExtension h (url.Path (http.Request.URL req)) then false else
  isRequestingPrerenderedPage.

Definition CF_VISITOR : string := "Cf-Visitor".
Definition CF_HTTPS : string :=
  DQ +:+ "scheme" +:+ DQ +:+ ":" +:+ DQ +:+ "https" +:+ DQ.
Definition X_FORWARDED_PROTO : string := "X-Forwarded-Proto".
Definition X_FORWARDED_HTTPS : string := "https,".
Definition HTTP_HOST : string := "Host".

Definition buildApiUrl (h : handler) (req : http.Request.t)
  : string * option error :=
  match ParseRequestURI (http.Request.RequestURI req) with
  | inr err => (EmptyString, Some err)
  | inl u =>
    let u := url.set_Host u (http.Get (http.Request.Header req) HTTP_HOST) in
    let u := if String.eqb (url.Host u) EmptyString
             then url.set_Host u (url.Host (http.Request.URL req)) else u in
    let u := if String.eqb (url.Host u) EmptyString
             then url.set_Host u (http.Request.Host req) else u in
    if String.eqb (url.Host u) EmptyString
    then (EmptyString, Some "undetectable host") else
    let u := url.set_Scheme u "http" in
    let u :=
      if Strings.Contains (http.Get (http.Request.Header req) CF_VISITOR) CF_HTTPS
      then url.set_Scheme u "https"
      else if Strings.HasPrefix
                (http.Get (http.Request.Header req) X_FORWARDED_PROTO)
                X_FORWARDED_HTTPS
      then url.set_Scheme u "https"
      else u in
    let rawurl := prerenderServiceURL h in
    let rawurl := if negb (Strings.HasSuffix rawurl "/")
                  then rawurl +:+ "/" else rawurl in
    let rawurl := rawurl +:+ QueryEscape (URL_String u) in
    (rawurl, None)
  end.

(** [h.logf("prerender error: %s", err)] and the [http.Error] after it. *)
Definition internalServerError (h : handler) (err : error) : Action :=
  logf h ("prerender error: " +:+ err) >>>
  on_rw (http.Error "Internal server error" http.StatusInternalServerError).

Definition getPrerenderedPage (h : handler) (req1 : http.Request.t) : Action :=
  logf h ("prerender: " +:+ Quote (URL_String (http.Request.URL req1))) >>>
  match buildApiUrl h req1 with
  | (_, Some err) => internalServerError h err
  | (rawurl, None) =>
  match http.NewRequest "GET" rawurl with
  | inr err => internalServerError h err
  | inl req2 =>
    let req2 := http.Request.Header_Set req2 "User-Agent"
                  (http.Request.UserAgent req1) in
    let req2 := if nonempty (prerenderToken h)
                then http.Request.Header_Set req2 variables.x_PRERENDER_TOKEN
                       (prerenderToken h)
                else req2 in
    let req2 := if nonempty (prerenderUsername h) || nonempty (prerenderPassword h)
                then http.Request.SetBasicAuth req2 (prerenderUsername h)
                       (prerenderPassword h)
                else req2 in
    match Do req2 with
    | (resp, Some err) =>
        if negb (Strings.HasSuffix err "Redirect")
        then internalServerError h err
        else
          match resp with
          | None => panic
          | Some resp =>
              on_rw (http.with_Header
                       (rangeHeader http.Set_ (http.Response.Header resp))) >>>
              on_rw (http.WriteHeader 301) >>>
              on_rw (http.Write EmptyString)
          end
    | (resp, None) =>
        match resp with
        | None => panic
        | Some resp =>
            on_rw (http.WriteHeader (http.Response.StatusCode resp)) >>>
            on_rw (http.with_Header
                     (rangeHeader http.Add (http.Response.Header resp))) >>>
            (* the deferred [resp.Body.Close()] writes nothing to the client *)
            match http.read_err (http.Response.Body resp) with
            | Some err =>
                logf h ("prerender error: " +:+ err) >>>
                Println err >>>
                on_rw (http.Error "Internal server error"
                         http.StatusInternalServerError)
            | None => on_rw (http.Write (http.content (http.Response.Body resp)))
            end
        end
    end
  end
  end.

(** [ServeHTTP] serves the HTTP. *)
Definition ServeHTTP (h : handler) (req : http.Request.t) : Action :=
  if negb (shouldShowPrerenderedPage h req)
  then match sub h with
       | None => panic
       | Some app => λ w, Some (app req w)
       end
  else getPrerenderedPage h req.

End prerender.

(** ** A reference library

    A small [GoLib] on which the handler runs: the library functions
    restricted to ASCII text, origin-form request URIs ([/path?query]) and
    paths that need no escaping.  [basicAuth] leaves the base64 step out. *)

Module Ref.

Definition in_range (lo hi : nat) (c : ascii) : bool :=
  (lo <=? Ascii.nat_of_ascii c)%nat && (Ascii.nat_of_ascii c <=? hi)%nat.

Definition is_upper : ascii → bool := in_range 65 90.
Definition is_lower : ascii → bool := in_range 97 122.
Definition is_digit : ascii → bool := in_range 48 57.
Definition is_alnum (c : ascii) : bool := is_upper c || is_lower c || is_digit c.

Definition lower (c : ascii) : ascii :=
  if is_upper c then Ascii.ascii_of_nat (Ascii.nat_of_ascii c + 32) else c.
Definition upper (c : ascii) : ascii :=
  if is_lower c then Ascii.ascii_of_nat (Ascii.nat_of_ascii c - 32) else c.

Fixpoint map_bytes (f : ascii → ascii) (s : string) : string :=
  match s with
  | EmptyString => EmptyString
  | String c s' => String (f c) (map_bytes f s')
  end.

Fixpoint all_bytes (p : ascii → bool) (s : string) : bool :=
  match s with
  | EmptyString => true
  | String c s' => p c && all_bytes p s'
  end.

Fixpoint mem_byte (c : ascii) (s : string) : bool :=
  match s with
  | EmptyString => false
  | String d s' => Ascii.eqb c d || mem_byte c s'
  end.

Definition ToLower : string → string := map_bytes lower.

(** Header keys: a key of token bytes is put in [Title-Case], any other
    key is returned as it is. *)
Definition is_token (c : ascii) : bool :=
  is_alnum c || mem_byte c "!#$%&'*+-.^_`|~".

Fixpoint title (up : bool) (s : string) : string :=
  match s with
  | EmptyString => EmptyString
  | String c s' =>
      String (if up then upper c else lower c) (title (Ascii.eqb c "-") s')
  end.

Definition CanonicalMIMEHeaderKey (s : string) : string :=
  if all_bytes is_token s then title true s else s.

(** [strings.Cut(s, sep)] for a one-byte separator. *)
Fixpoint cut (sep : ascii) (s : string) : string * option string :=
  match s with
  | EmptyString => (EmptyString, None)
  | String c s' =>
      if Ascii.eqb c sep then (EmptyString, Some s')
      else let '(before, after) := cut sep s' in (String c before, after)
  end.

Definition ParseRequestURI (rawurl : string) : url.URL + error :=
  match rawurl with
  | EmptyString => inr "parse: empty url"
  | String c _ =>
      if Ascii.eqb c "/"
      then let '(path, query) := cut "?" rawurl in
           inl (url.mkURL EmptyString EmptyString EmptyString path
                  (default EmptyString query) EmptyString)
      else inr "parse: invalid URI for request"
  end.

Definition is_control (c : ascii) : bool :=
  (Ascii.nat_of_ascii c <? 32)%nat || (Ascii.nat_of_ascii c =? 127)%nat.

(** [scheme://host/path?query], rejected when it holds a control byte. *)
Definition Parse (rawurl : string) : url.URL + error :=
  if negb (all_bytes (λ c, negb (is_control c)) rawurl)
  then inr "parse: net/url: invalid control character in URL"
  else
    let '(rest, query) := cut "?" rawurl in
    let '(scheme, rest) :=
      match cut ":" rest with
      | (scheme, Some after) => (scheme, Strings.skip 2 after)
      | (_, None) => (EmptyString, rest)
      end in
    let '(host, path) :=
      match cut "/" rest with
      | (host, Some path) => (host, "/" +:+ path)
      | (host, None) => (host, EmptyString)
      end in
    inl (url.mkURL scheme EmptyString host path (default EmptyString query)
           EmptyString).

(** The pairs [key=value] of a query string, split at [&]. *)
Fixpoint pairs (fuel : nat) (query : string) : list (string * string) :=
  match fuel with
  | O => []
  | S fuel' =>
      let '(item, rest) := cut "&" query in
      let here := match item with
                  | EmptyString => []
                  | _ => let '(key, value) := cut "=" item in
                         [(key, default EmptyString value)]
                  end in
      match rest with
      | Some rest => here ++ pairs fuel' rest
      | None => here
      end
  end.

Definition Query (u : url.URL) : url.Values :=
  foldl (λ m kv, <[kv.1 := default [] (m !! kv.1) ++ [kv.2]]> m) ∅
    (pairs (S (String.length (url.RawQuery u))) (url.RawQuery u)).

Definition URL_String (u : url.URL) : string :=
  (if nonempty (url.Scheme u) then url.Scheme u +:+ ":" else EmptyString)
  +:+ (if nonempty (url.Opaque u) then url.Opaque u
       else (if nonempty (url.Scheme u) || nonempty (url.Host u)
             then "//" +:+ url.Host u else EmptyString)
            +:+ url.Path u)
  +:+ (if nonempty (url.RawQuery u) then "?" +:+ url.RawQuery u else EmptyString)
  +:+ (if nonempty (url.Fragment u) then "#" +:+ url.Fragment u else EmptyString).

Definition hex (n : nat) : ascii :=
  default "0"%char (String.get n "0123456789ABCDEF").

(** [url.QueryEscape]: letters, digits and [-_.~] stay, a space becomes
    [+], any other byte becomes [%XX]. *)
Definition escape_byte (c : ascii) : string :=
  if is_alnum c || mem_byte c "-_.~" then String c EmptyString
  else if Ascii.eqb c " " then "+"
  else String "%" (String (hex (Ascii.nat_of_ascii c / 16))
                     (String (hex (Ascii.nat_of_ascii c mod 16)) EmptyString)).

Fixpoint QueryEscape (s : string) : string :=
  match s with
  | EmptyString => EmptyString
  | String c s' => escape_byte c +:+ QueryEscape s'
  end.

Definition basicAuth (username password : string) : string :=
  username +:+ ":" +:+ password.

Definition Quote (s : string) : string := DQ +:+ s +:+ DQ.

End Ref.

Instance RefLib : GoLib := {|
  ToLower := Ref.ToLower;
  CanonicalMIMEHeaderKey := Ref.CanonicalMIMEHeaderKey;
  ParseRequestURI := Ref.ParseRequestURI;
  Parse := Ref.Parse;
  Query := Ref.Query;
  URL_String := Ref.URL_String;
  QueryEscape := Ref.QueryEscape;
  basicAuth := Ref.basicAuth;
  Quote := Ref.Quote
|}.

(** ** The claims' own words

    Definitions that follow the specification's sentences; the theorems
    below compare them with what [handler.go] computes. *)

Section words.
Context `{GoLib}.

(** "Resolve host in priority order: explicit Host header, then the
    request's own URL host field, then the connection-level host field." *)
Definition hostByPriority (req : http.Request.t) : string :=
  if nonempty (http.Get (http.Request.Header req) "Host")
  then http.Get (http.Request.Header req) "Host"
  else if nonempty (url.Host (http.Request.URL req))
  then url.Host (http.Request.URL req)
  else http.Request.Host req.

(** "a Cf-Visitor header's value contains the literal substring
    scheme:https (each word in double quotes), or an X-Forwarded-Proto
    header's value starts with https followed by a comma." *)
Definition declaresHTTPS (req : http.Request.t) : Prop :=
  (∃ pre post,
     http.Get (http.Request.Header req) "Cf-Visitor"
     = pre +:+ (DQ +:+ "scheme" +:+ DQ +:+ ":" +:+ DQ +:+ "https" +:+ DQ) +:+ post)
  ∨ (∃ rest,
       http.Get (http.Request.Header req) "X-Forwarded-Proto" = "https," +:+ rest).

(** "the lower-cased path contains a configured ignored-extension
    substring" *)
Definition hasIgnoredExtension (h : handler) (req : http.Request.t) : Prop :=
  ∃ ext pre post,
    ext ∈ ignoredExtension h
    ∧ ToLower (url.Path (http.Request.URL req)) = pre +:+ ext +:+ post.

(** "the lower-cased User-Agent contains a configured bot substring" *)
Definition hasBotUserAgent (h : handler) (req : http.Request.t) : Prop :=
  ∃ name pre post,
    name ∈ botUserAgents h
    ∧ ToLower (http.Request.UserAgent req) = pre +:+ name +:+ post.

(** "query parameter _escaped_fragment_ is present (with at least one
    value, including the empty string)" *)
Definition hasEscapedFragment (req : http.Request.t) : Prop :=
  ∃ value values,
    Query (http.Request.URL req) !! "_escaped_fragment_" = Some (value :: values).

(** "Outbound request carries the original User-Agent header, an auth
    token header if configured, and HTTP basic auth if a username or
    password is configured": what [getPrerenderedPage] makes of the
    request [http.NewRequest] returned before it calls [Do]. *)
Definition outbound (h : handler) (req1 req2 : http.Request.t) : http.Request.t :=
  let req2 := http.Request.Header_Set req2 "User-Agent"
                (http.Request.UserAgent req1) in
  let req2 := if nonempty (prerenderToken h)
              then http.Request.Header_Set req2 variables.x_PRERENDER_TOKEN
                     (prerenderToken h)
              else req2 in
  if nonempty (prerenderUsername h) || nonempty (prerenderPassword h)
  then http.Request.SetBasicAuth req2 (prerenderUsername h) (prerenderPassword h)
  else req2.

(** The keys of a map are canonical, as in every header [net/http] parsed. *)
Definition canonical (m : http.Header) : Prop :=
  ∀ key vs, m !! key = Some vs → CanonicalMIMEHeaderKey key = key.

(** The lines a handler with a logger writes, none without a logger. *)
Definition lines (h : handler) (ls : list string) : list (golog.Logger * string) :=
  match log h with
  | Some logger => (λ l, (logger, l)) <$> ls
  | None => []
  end.
End words.

(** ** Conditions the further properties are stated under *)

(** No byte of the string is an upper-case ASCII letter. *)
Definition noUpper (s : string) : bool :=
  Ref.all_bytes (λ c, negb (Ref.is_upper c)) s.

Section conditions.
Context `{GoLib}.

(** [strings.ToLower] leaves no upper-case ASCII letter in its result. *)
Definition lowerCasing : Prop := ∀ s, noUpper (ToLower s) = true.

(** The three header names [getPrerenderedPage] sets on the outbound
    request have three canonical forms. *)
Definition distinctKeys : Prop :=
  CanonicalMIMEHeaderKey "User-Agent" ≠ CanonicalMIMEHeaderKey "X-Prerender-Token"
  ∧ CanonicalMIMEHeaderKey "User-Agent" ≠ CanonicalMIMEHeaderKey "Authorization"
  ∧ CanonicalMIMEHeaderKey "X-Prerender-Token" ≠ CanonicalMIMEHeaderKey "Authorization".


(** The request cannot be turned into an outbound request: [buildApiUrl]
    fails, or [http.NewRequest] fails on the URL it built. *)
Definition buildFailure (h : handler) (req : http.Request.t) (err : error) : Prop :=
  (∃ rawurl, buildApiUrl h req = (rawurl, Some err))
  ∨ (∃ rawurl, buildApiUrl h req = (rawurl, None)
               ∧ http.NewRequest "GET" rawurl = inr err).

(** Any of the three reasons to prerender. *)
Definition wantsPrerender (h : handler) (req : http.Request.t) : Prop :=
  hasEscapedFragment req
  ∨ hasBotUserAgent h req
  ∨ http.Get (http.Request.Header req) "X-Bufferbot" ≠ EmptyString.
End conditions.




(** An option that leaves a field of the handler as it is. *)
Definition keeps {A : Type} (field : handler → A) (o : Option) : Prop :=
  ∀ h, field (o h) = field h.

(** [req.URL = u], as a path-rewriting middleware leaves a request. *)
Definition with_URL (req : http.Request.t) (u : url.URL) : http.Request.t :=
  http.Request.mk (http.Request.Method req) u (http.Request.Header req)
    (http.Request.Host req) (http.Request.RequestURI req).

(** ** Inputs of the examples *)

Module Inputs.

(** What [http.DefaultServeMux] does while no route is registered. *)
Definition notFound : AppHandler := λ _ w,
  mkWorld (http.Error "404 page not found" 404 (rw w)) (logged w) (stdout w).

(** An empty environment. *)
Definition noenv : string → string := λ _, EmptyString.

(** [prerender.Handler(nil)], as in the example program. *)
Definition h0 : handler := Handler notFound noenv None [].

(** The same with a logger. *)
Definition stderr : golog.Logger := golog.mk "prerender ".
Definition h1 : handler := Handler notFound noenv None [Logger (Some stderr)].

(** A request as the server hands it over: the request line's URI in
    [RequestURI], parsed in [URL]; the Host header in [Host]. *)
Definition request (method path query : string) (header : http.Header)
    (host : string) : http.Request.t :=
  http.Request.mk method
    (url.mkURL EmptyString EmptyString EmptyString path query EmptyString)
    header host
    (if nonempty query then path +:+ "?" +:+ query else path).

Definition world0 : World := mkWorld http.fresh [] [].

(** A bot, an escaped fragment and the buffer-bot header, on an image. *)
Definition req_asset : http.Request.t :=
  request "GET" "/img/Logo.PNG" "_escaped_fragment_="
    {[ "User-Agent" := ["Twitterbot/1.0"]; "X-Bufferbot" := ["1"] ]}
    "example.com".

(** A form post that carries the escaped fragment. *)
Definition req_post : http.Request.t :=
  request "POST" "/comments" "_escaped_fragment_="
    {[ "User-Agent" := ["Mozilla/5.0"] ]} "example.com".

(** An escaped-fragment request of a browser. *)
Definition req_fragment : http.Request.t :=
  request "GET" "/article" "_escaped_fragment_="
    {[ "User-Agent" := ["Mozilla/5.0"] ]} "example.com".

(** The successful-prerender scenario: a bot asks for [/article]. *)
Definition req_bot : http.Request.t :=
  request "GET" "/article" EmptyString
    {[ "User-Agent" := ["Twitterbot/1.0"] ]} "host".

(** The pass-through scenario: a browser asks for [/home]. *)
Definition req_home : http.Request.t :=
  request "GET" "/home" EmptyString {[ "User-Agent" := ["Mozilla/5.0"] ]} "host".

(** The three host sources, all present; only the connection-level one;
    none. *)
Definition req_abc : http.Request.t :=
  http.Request.mk "GET"
    (url.mkURL EmptyString EmptyString "b" "/article" EmptyString EmptyString)
    {[ "User-Agent" := ["Twitterbot/1.0"]; "Host" := ["a"] ]} "c" "/article".

Definition req_nohost : http.Request.t :=
  request "GET" "/article" EmptyString
    {[ "User-Agent" := ["Twitterbot/1.0"] ]} EmptyString.

(** The two scheme conventions. *)
Definition req_cf : http.Request.t :=
  request "GET" "/article" EmptyString
    {[ "User-Agent" := ["Twitterbot/1.0"];
       "Cf-Visitor" := ["{" +:+ CF_HTTPS +:+ "}"] ]} "host".

Definition req_xfp : http.Request.t :=
  request "GET" "/article" EmptyString
    {[ "User-Agent" := ["Twitterbot/1.0"];
       "X-Forwarded-Proto" := ["https,1.2.3.4"] ]} "host".

(** A rendering service that cannot be reached. *)
Definition Do_refused : http.Request.t → option http.Response.t * option error :=
  λ _, (None, Some "Get: dial tcp 10.0.0.1:80: connect: connection refused").

(** A rendering service that answers 302 with a Location and two cookies;
    the client's [CheckRedirect] turns it into the error of the call. *)
Definition redirect302 : http.Response.t :=
  http.Response.mk 302
    {[ "Location" := ["https://example.com/foo"];
       "Set-Cookie" := ["a=1"; "b=2"] ]}
    (http.mkBody EmptyString None).

Definition Do_redirect : http.Request.t → option http.Response.t * option error :=
  λ req2, (Some redirect302,
           Some ("Get " +:+ Ref.Quote (Ref.URL_String (http.Request.URL req2))
                 +:+ ": Redirect")).

(** A rendering service that answers 200 with a page. *)
Definition page200 : http.Response.t :=
  http.Response.mk 200
    {[ "Content-Type" := ["text/html"]; "Set-Cookie" := ["a=1"; "b=2"] ]}
    (http.mkBody "<html></html>" None).

Definition Do_page : http.Request.t → option http.Response.t * option error :=
  λ _, (Some page200, None).



(** A request built by hand, without a request URI. *)
Definition req_nouri : http.Request.t :=
  http.Request.mk "GET"
    (url.mkURL EmptyString EmptyString EmptyString "/article" EmptyString
       EmptyString)
    {[ "User-Agent" := ["Twitterbot/1.0"] ]} "host" EmptyString.

(** Bot names and extensions written with capitals, and empty ones. *)
Definition h_capitals : handler :=
  Handler notFound noenv None [Bots ["Twitterbot"]; IgnoredExtensions [".PNG"]].

Definition h_empty_bot : handler :=
  Handler notFound noenv None [Bots [EmptyString]].

Definition h_empty_ext : handler :=
  Handler notFound noenv None [IgnoredExtensions [EmptyString]].

(** A handler with a token and credentials. *)
Definition h_auth : handler :=
  Handler notFound noenv None [ServiceToken "secret"; ServiceAuth "user" "pass"].

(** An environment that sets the service and its token. *)
Definition env1 : string → string := λ name,
  if String.eqb name "PRERENDER_SERVICE_URL" then "http://localhost:3000"
  else if String.eqb name "PRERENDER_TOKEN" then "envtoken"
  else if String.eqb name "PRERENDER_PASSWORD" then "envpass"
  else EmptyString.

(** A request with the forwarded protocol written without a comma. *)
Definition req_xfp_plain : http.Request.t :=
  request "GET" "/article" EmptyString
    {[ "User-Agent" := ["Twitterbot/1.0"]; "X-Forwarded-Proto" := ["https"] ]}
    "host".

End Inputs.

(** *** What the three tests decide *)

Lemma HasPrefix_spec (s prefix : string) :
  Strings.HasPrefix s prefix = true ↔ ∃ t, s = prefix +:+ t.
Proof.
  revert s. induction prefix as [|c p IH]; intros s; simpl.
  - split; [intros _; by exists s | done].
  - destruct s as [|d s]; simpl.
    + split; [done | intros [t Ht]; discriminate].
    + destruct (Ascii.eqb c d) eqn:E.
      * apply Ascii.eqb_eq in E as ->. rewrite IH.
        split; intros [t Ht]; exists t; [by rewrite Ht | by injection Ht].
      * apply Ascii.eqb_neq in E.
        split; [done | intros [t Ht]; injection Ht; congruence].
Qed.

Lemma Contains_spec (s substr : string) :
  Strings.Contains s substr = true ↔ ∃ pre post, s = pre +:+ substr +:+ post.
Proof.
  induction s as [|d s IH]; simpl.
  - rewrite orb_false_r, HasPrefix_spec. split.
    + intros [t Ht]. by exists EmptyString, t.
    + intros [pre [post H]]. destruct pre; [by exists post | discriminate].
  - rewrite orb_true_iff, HasPrefix_spec, IH. split.
    + intros [[t Ht] | [pre [post H]]].
      * by exists EmptyString, t.
      * exists (String d pre), post. by rewrite H.
    + intros [pre [post H]]. destruct pre as [|e pre]; simpl in H.
      * left. by exists post.
      * right. exists pre, post. by injection H.
Qed.

Lemma append_assoc (s t u : string) : (s +:+ t) +:+ u = s +:+ t +:+ u.
Proof.
  induction s as [|c s IH]; [done |].
  change (String c ((s +:+ t) +:+ u) = String c (s +:+ t +:+ u)). by f_equal.
Qed.

Lemma append_empty_r (s : string) : s +:+ EmptyString = s.
Proof.
  induction s as [|c s IH]; [done |].
  change (String c (s +:+ EmptyString) = String c s). by f_equal.
Qed.

Lemma skip_app (t u : string) : Strings.skip (String.length t) (t +:+ u) = u.
Proof. induction t; simpl; [by destruct u | done]. Qed.

Lemma length_append (t u : string) :
  String.length (t +:+ u) = (String.length t + String.length u)%nat.
Proof. induction t; simpl; [done | by rewrite IHt]. Qed.

Lemma skip_split (n : nat) (s : string) :
  (n ≤ String.length s)%nat → ∃ t, s = t +:+ Strings.skip n s.
Proof.
  revert s. induction n as [|n IH]; intros s Hn.
  - exists EmptyString. by destruct s.
  - destruct s as [|c s]; simpl in *; [lia |].
    destruct (IH s) as [t Ht]; [lia |].
    exists (String c t).
    change (String c s = String c (t +:+ Strings.skip n s)). by f_equal.
Qed.

Lemma HasSuffix_spec (s suffix : string) :
  Strings.HasSuffix s suffix = true ↔ ∃ t, s = t +:+ suffix.
Proof.
  unfold Strings.HasSuffix. rewrite andb_true_iff, Nat.leb_le, String.eqb_eq.
  split.
  - intros [Hle Heq]. destruct (skip_split _ _ (Nat.le_sub_l (String.length s) (String.length suffix))) as [t Ht].
    exists t. by rewrite <- Heq.
  - intros [t ->]. rewrite length_append. split; [lia |].
    replace (String.length t + String.length suffix - String.length suffix)%nat
      with (String.length t) by lia.
    apply skip_app.
Qed.


(** ** The classifier *)

Lemma containsAny_spec (s : string) (names : list string) :
  containsAny s names = true
  ↔ ∃ name pre post, name ∈ names ∧ s = pre +:+ name +:+ post.
Proof.
  induction names as [|n names IH]; simpl.
  - split; [done | intros (name & _ & _ & Hin & _); by apply elem_of_nil in Hin].
  - destruct (Strings.Contains s n) eqn:E.
    + apply Contains_spec in E as (pre & post & ->).
      split; [intros _ | done]. exists n, pre, post. split; [left | done].
    + rewrite IH. split.
      * intros (name & pre & post & Hin & ->). exists name, pre, post.
        split; [by right | done].
      * intros (name & pre & post & Hin & ->).
        apply elem_of_cons in Hin as [-> | Hin].
        -- assert (Strings.Contains (pre +:+ n +:+ post) n = true) as E'
             by (apply Contains_spec; eauto).
           congruence.
        -- exists name, pre, post. done.
Qed.

Lemma nonempty_true (s : string) : nonempty s = true ↔ s ≠ EmptyString.
Proof.
  unfold nonempty. rewrite negb_true_iff. split.
  - intros E ->. by rewrite String.eqb_refl in E.
  - intros Hs. by apply String.eqb_neq.
Qed.

Lemma nonempty_false (s : string) : nonempty s = false ↔ s = EmptyString.
Proof.
  unfold nonempty. rewrite negb_false_iff. apply String.eqb_eq.
Qed.

Section classifier.
Context `{GoLib}.

Lemma containsIgnoredExtension_spec (h : handler) (req : http.Request.t) :
  containsIgnoredExtension h (url.Path (http.Request.URL req)) = true
  ↔ hasIgnoredExtension h req.
Proof. unfold containsIgnoredExtension. apply containsAny_spec. Qed.

Lemma isBot_spec (h : handler) (req : http.Request.t) :
  isBot h (http.Request.UserAgent req) = true ↔ hasBotUserAgent h req.
Proof. unfold isBot. apply containsAny_spec. Qed.

(** C1. A request whose lower-cased path contains a configured
    ignored-extension substring is passed through, whatever its
    User-Agent, its query and its buffer-bot header are. *)
Theorem ignored_extension_passes_through (h : handler) (req : http.Request.t) :
  hasIgnoredExtension h req → shouldShowPrerenderedPage h req = false.
Proof.
  intros Hext. apply containsIgnoredExtension_spec in Hext.
  unfold shouldShowPrerenderedPage. rewrite Hext.
  destruct (String.eqb _ _); [done |]. by destruct (negb _).
Qed.

(** C9. A request with an empty User-Agent, and a request whose method is
    not GET, is passed through, whatever its other headers, its query and
    the configuration are. *)
Theorem empty_agent_or_other_method_passes_through
    (h : handler) (req : http.Request.t) :
  http.Request.UserAgent req = EmptyString ∨ http.Request.Method req ≠ "GET" →
  shouldShowPrerenderedPage h req = false.
Proof.
  intros [Hua | Hm]; unfold shouldShowPrerenderedPage.
  - by rewrite Hua, String.eqb_refl.
  - destruct (String.eqb (http.Request.UserAgent req) _); [done |].
    apply String.eqb_neq in Hm. by rewrite Hm.
Qed.

(** C8, amended. A GET request with a non-empty User-Agent, the query
    parameter _escaped_fragment_ present (with any value) and no
    configured ignored-extension substring in its lower-cased path is
    intercepted. *)
Theorem escaped_fragment_intercepted (h : handler) (req : http.Request.t) :
  http.Request.UserAgent req ≠ EmptyString →
  http.Request.Method req = "GET" →
  hasEscapedFragment req →
  ¬ hasIgnoredExtension h req →
  shouldShowPrerenderedPage h req = true.
Proof.
  intros Hua Hm (value & values & Hq) Hext.
  rewrite <- containsIgnoredExtension_spec in Hext.
  apply not_true_is_false in Hext.
  apply String.eqb_neq in Hua.
  unfold shouldShowPrerenderedPage, ESCAPED_FRAGMENT.
  rewrite Hua, Hm, Hq, Hext. simpl.
  destruct (isBot _ _); by destruct (nonempty _).
Qed.
End classifier.

(** C1 at a request for an image that a bot sends with the escaped fragment
    and the buffer-bot header. *)
Lemma ignored_extension_passes_through_witness :
  @shouldShowPrerenderedPage RefLib Inputs.h0 Inputs.req_asset = false.
Proof.
  apply (@ignored_extension_passes_through RefLib).
  exists ".png", "/img/logo", EmptyString. split; [| reflexivity].
  vm_compute. repeat constructor.
Defined.

(** C9 at a POST request. *)
Lemma empty_agent_or_other_method_passes_through_witness :
  @shouldShowPrerenderedPage RefLib Inputs.h0 Inputs.req_post = false.
Proof.
  apply (@empty_agent_or_other_method_passes_through RefLib).
  right. discriminate.
Defined.

(** C8 as stated fails: a POST request that carries the escaped fragment and
    has no ignored extension in its path is passed through. *)
Lemma escaped_fragment_post_passes_through :
  @hasEscapedFragment RefLib Inputs.req_post
  ∧ ¬ @hasIgnoredExtension RefLib Inputs.h0 Inputs.req_post
  ∧ @shouldShowPrerenderedPage RefLib Inputs.h0 Inputs.req_post = false.
Proof.
  split; [| split].
  - by exists EmptyString, [].
  - rewrite <- (@containsIgnoredExtension_spec RefLib). by vm_compute.
  - reflexivity.
Qed.

(** C8, amended, at a browser's escaped-fragment request. *)
Lemma escaped_fragment_intercepted_witness :
  @shouldShowPrerenderedPage RefLib Inputs.h0 Inputs.req_fragment = true.
Proof.
  apply (@escaped_fragment_intercepted RefLib).
  - by vm_compute.
  - reflexivity.
  - by exists EmptyString, [].
  - rewrite <- (@containsIgnoredExtension_spec RefLib). by vm_compute.
Defined.

(** ** The response writer *)

Section writer.
Context `{GoLib}.

(** What [http.Error] leaves in a response nothing was sent on. *)
Lemma Error_unsent (err : string) (code : Z) (w : http.ResponseWriter) :
  http.wroteHeader w = false →
  http.status (http.Error err code w) = code
  ∧ http.body (http.Error err code w) = http.body w +:+ err +:+ http.LF
  ∧ http.wroteHeader (http.Error err code w) = true.
Proof.
  intros Hw. unfold http.Error, http.Write, http.WriteHeader, http.with_Header.
  simpl. rewrite Hw. simpl. done.
Qed.

(** [http.Error] always writes its message, also after the header went
    out. *)
Lemma Error_body (err : string) (code : Z) (w : http.ResponseWriter) :
  http.body (http.Error err code w) = http.body w +:+ err +:+ http.LF.
Proof.
  unfold http.Error, http.Write, http.WriteHeader, http.with_Header.
  simpl. by destruct (http.wroteHeader w).
Qed.

Lemma logf_eq (h : handler) (line : string) (w : World) :
  logf h line w = Some (mkWorld (rw w) (logged w ++ lines h [line]) (stdout w)).
Proof.
  unfold logf, lines. destruct w as [r l o], (log h); simpl; [done |].
  by rewrite app_nil_r.
Qed.

Lemma lines_app (h : handler) (ls1 ls2 : list string) :
  lines h ls1 ++ lines h ls2 = lines h (ls1 ++ ls2).
Proof. unfold lines. destruct (log h); [by rewrite fmap_app | done]. Qed.

Lemma internalServerError_eq (h : handler) (err : error) (w : World) :
  internalServerError h err w
  = Some (mkWorld
            (http.Error "Internal server error" http.StatusInternalServerError (rw w))
            (logged w ++ lines h ["prerender error: " +:+ err]) (stdout w)).
Proof. unfold internalServerError, seq. by rewrite logf_eq. Qed.
End writer.

(** ** The URL builder *)

Section builder.
Context `{GoLib}.
Variable Do : http.Request.t → option http.Response.t * option error.

(** [buildApiUrl], its three host assignments folded into
    [hostByPriority]. *)
Lemma buildApiUrl_unfold (h : handler) (req : http.Request.t) :
  buildApiUrl h req
  = match ParseRequestURI (http.Request.RequestURI req) with
    | inr err => (EmptyString, Some err)
    | inl u =>
        if String.eqb (hostByPriority req) EmptyString
        then (EmptyString, Some "undetectable host")
        else
          ((if negb (Strings.HasSuffix (prerenderServiceURL h) "/")
            then prerenderServiceURL h +:+ "/" else prerenderServiceURL h)
           +:+ QueryEscape (URL_String
                 (url.set_Scheme (url.set_Host u (hostByPriority req))
                    (if Strings.Contains
                          (http.Get (http.Request.Header req) CF_VISITOR) CF_HTTPS
                        || Strings.HasPrefix
                             (http.Get (http.Request.Header req) X_FORWARDED_PROTO)
                             X_FORWARDED_HTTPS
                     then "https" else "http"))),
           None)
    end.
Proof.
  unfold buildApiUrl, hostByPriority, nonempty, HTTP_HOST.
  destruct (ParseRequestURI _) as [u | err]; [| done]. cbv zeta.
  destruct (Strings.Contains _ _), (Strings.HasPrefix _ _),
    (negb (Strings.HasSuffix _ _)).
  all: cbn [url.Host url.set_Host orb].
  all: destruct (String.eqb (http.Get (http.Request.Header req) "Host") EmptyString) eqn:E1;
    cbn [url.Host url.set_Host negb]; rewrite ?E1.
  all: destruct (String.eqb (url.Host (http.Request.URL req)) EmptyString) eqn:E2;
    cbn [url.Host url.set_Host negb]; rewrite ?E1, ?E2.
  all: destruct (String.eqb (http.Request.Host req) EmptyString) eqn:E3;
    cbn [url.Host url.set_Host negb]; rewrite ?E1, ?E2, ?E3.
  all: reflexivity.
Qed.

(** [buildApiUrl] on a request URI that parses: the three host sources in
    their order, the two scheme headers, the separator. *)
Lemma buildApiUrl_parsed (h : handler) (req : http.Request.t) (u : url.URL) :
  ParseRequestURI (http.Request.RequestURI req) = inl u →
  (hostByPriority req = EmptyString
   ∧ buildApiUrl h req = (EmptyString, Some "undetectable host"))
  ∨ (hostByPriority req ≠ EmptyString
     ∧ ∃ scheme sep,
         buildApiUrl h req
         = (prerenderServiceURL h +:+ sep
              +:+ QueryEscape (URL_String
                    (url.set_Scheme (url.set_Host u (hostByPriority req)) scheme)),
            None)
         ∧ (declaresHTTPS req ∧ scheme = "https"
            ∨ ¬ declaresHTTPS req ∧ scheme = "http")
         ∧ ((∃ t, prerenderServiceURL h = t +:+ "/") ∧ sep = EmptyString
            ∨ ¬ (∃ t, prerenderServiceURL h = t +:+ "/") ∧ sep = "/")).
Proof.
  intros Hparse. rewrite buildApiUrl_unfold, Hparse.
  destruct (String.eqb (hostByPriority req) EmptyString) eqn:Eh.
  { left. by apply String.eqb_eq in Eh. }
  right. split; [by apply String.eqb_neq |].
  assert (Strings.Contains (http.Get (http.Request.Header req) CF_VISITOR) CF_HTTPS
          || Strings.HasPrefix (http.Get (http.Request.Header req) X_FORWARDED_PROTO)
               X_FORWARDED_HTTPS = true
          ↔ declaresHTTPS req) as Hs.
  { rewrite orb_true_iff, Contains_spec, HasPrefix_spec. done. }
  destruct (_ || _).
  - exists "https".
    destruct (Strings.HasSuffix (prerenderServiceURL h) "/") eqn:E.
    + exists EmptyString. split; [| split].
      * cbn [negb]. by rewrite ?append_assoc.
      * left. split; [by apply Hs | done].
      * left. split; [by apply HasSuffix_spec | done].
    + exists "/". split; [| split].
      * cbn [negb]. by rewrite ?append_assoc.
      * left. split; [by apply Hs | done].
      * right. split; [| done]. rewrite <- HasSuffix_spec. congruence.
  - exists "http".
    assert (¬ declaresHTTPS req) as Hn by (rewrite <- Hs; congruence).
    destruct (Strings.HasSuffix (prerenderServiceURL h) "/") eqn:E.
    + exists EmptyString. split; [| split].
      * cbn [negb]. by rewrite ?append_assoc.
      * by right.
      * left. split; [by apply HasSuffix_spec | done].
    + exists "/". split; [| split].
      * cbn [negb]. by rewrite ?append_assoc.
      * by right.
      * right. split; [| done]. rewrite <- HasSuffix_spec. congruence.
Qed.
End builder.

Section builder_claims.
Context `{GoLib}.
Variable Do : http.Request.t → option http.Response.t * option error.

Lemma hostByPriority_empty (req : http.Request.t) :
  hostByPriority req = EmptyString
  ↔ http.Get (http.Request.Header req) "Host" = EmptyString
    ∧ url.Host (http.Request.URL req) = EmptyString
    ∧ http.Request.Host req = EmptyString.
Proof.
  unfold hostByPriority.
  destruct (nonempty (http.Get _ _)) eqn:E1;
    [| destruct (nonempty (url.Host _)) eqn:E2].
  - apply nonempty_true in E1. tauto.
  - apply nonempty_true in E2. tauto.
  - apply nonempty_false in E1, E2. tauto.
Qed.

(** [getPrerenderedPage] when [buildApiUrl] fails. *)
Lemma getPrerenderedPage_build_error (h : handler) (req : http.Request.t)
    (rawurl : string) (err : error) (w : World) :
  buildApiUrl h req = (rawurl, Some err) →
  getPrerenderedPage Do h req w
  = Some (mkWorld
            (http.Error "Internal server error" http.StatusInternalServerError (rw w))
            (logged w
               ++ lines h ["prerender: " +:+ Quote (URL_String (http.Request.URL req));
                           "prerender error: " +:+ err])
            (stdout w)).
Proof.
  intros Hb. unfold getPrerenderedPage, seq. rewrite logf_eq, Hb. simpl.
  rewrite internalServerError_eq. simpl.
  by rewrite <- app_assoc, lines_app.
Qed.

(** C5. On a request whose request URI parses, the host of the
    reconstructed URL is the Host header if it is not empty, else the
    host of the request's URL if it is not empty, else the
    connection-level host; when all three are empty [buildApiUrl] fails
    with the error "undetectable host", and the client is answered with
    status 500. *)
Theorem host_by_priority (h : handler) (req : http.Request.t) (u : url.URL) :
  ParseRequestURI (http.Request.RequestURI req) = inl u →
  (hostByPriority req ≠ EmptyString →
   ∃ scheme sep,
     buildApiUrl h req
     = (prerenderServiceURL h +:+ sep
          +:+ QueryEscape (URL_String
                (url.set_Scheme (url.set_Host u (hostByPriority req)) scheme)),
        None))
  ∧ (http.Get (http.Request.Header req) "Host" = EmptyString
     ∧ url.Host (http.Request.URL req) = EmptyString
     ∧ http.Request.Host req = EmptyString →
     buildApiUrl h req = (EmptyString, Some "undetectable host")
     ∧ ∀ w, http.wroteHeader (rw w) = false →
         ∃ w', getPrerenderedPage Do h req w = Some w'
               ∧ http.status (rw w') = 500).
Proof.
  intros Hparse.
  destruct (buildApiUrl_parsed h req u Hparse)
    as [[Hh Hb] | (Hh & scheme & sep & Hb & _)].
  - split; [done |]. intros _. split; [done |]. intros w Hw.
    eexists. split; [exact (getPrerenderedPage_build_error _ _ _ _ _ Hb) |].
    cbn [rw]. exact (proj1 (Error_unsent _ _ _ Hw)).
  - split; [by eauto |]. intros He. by apply hostByPriority_empty in He.
Qed.

(** C6. On a request that [buildApiUrl] accepts, the scheme of the
    reconstructed URL is https if and only if the Cf-Visitor header's
    value contains the literal "scheme":"https" or the X-Forwarded-Proto
    header's value starts with "https,"; otherwise it is http. *)
Theorem scheme_by_headers (h : handler) (req : http.Request.t) (u : url.URL) :
  ParseRequestURI (http.Request.RequestURI req) = inl u →
  hostByPriority req ≠ EmptyString →
  ∃ scheme sep,
    buildApiUrl h req
    = (prerenderServiceURL h +:+ sep
         +:+ QueryEscape (URL_String
               (url.set_Scheme (url.set_Host u (hostByPriority req)) scheme)),
       None)
    ∧ (scheme = "https" ↔ declaresHTTPS req)
    ∧ (scheme = "http" ↔ ¬ declaresHTTPS req).
Proof.
  intros Hparse Hhost.
  destruct (buildApiUrl_parsed h req u Hparse)
    as [[Hh _] | (_ & scheme & sep & Hb & Hs & _)]; [done |].
  exists scheme, sep. split; [done |].
  destruct Hs as [[Hd ->] | [Hd ->]]; split; split; try done.
Qed.

(** C7. The URL [buildApiUrl] returns is the configured service URL, then
    one "/" exactly when the service URL does not end in "/", then the
    query-escaped serialized URL of the original request with the
    resolved host and scheme. *)
Theorem outbound_url (h : handler) (req : http.Request.t) (rawurl : string) :
  buildApiUrl h req = (rawurl, None) →
  ∃ u scheme sep,
    ParseRequestURI (http.Request.RequestURI req) = inl u
    ∧ rawurl
      = prerenderServiceURL h +:+ sep
          +:+ QueryEscape (URL_String
                (url.set_Scheme (url.set_Host u (hostByPriority req)) scheme))
    ∧ ((∃ t, prerenderServiceURL h = t +:+ "/") ∧ sep = EmptyString
       ∨ ¬ (∃ t, prerenderServiceURL h = t +:+ "/") ∧ sep = "/").
Proof.
  intros Hb.
  destruct (ParseRequestURI (http.Request.RequestURI req)) as [u | err] eqn:Hparse.
  - destruct (buildApiUrl_parsed h req u Hparse)
      as [[_ Hb'] | (_ & scheme & sep & Hb' & _ & Hsep)].
    + rewrite Hb' in Hb. discriminate.
    + exists u, scheme, sep. rewrite Hb' in Hb. by injection Hb as <-.
  - rewrite buildApiUrl_unfold, Hparse in Hb. discriminate.
Qed.
End builder_claims.

(** C5 on the three host sources "a", "b", "c": the Host header wins; and
    with no host at all: status 500. *)
Lemma host_by_priority_witness :
  (∃ scheme sep,
     @buildApiUrl RefLib Inputs.h0 Inputs.req_abc
     = ("http://service.prerender.io/" +:+ sep
          +:+ Ref.QueryEscape (Ref.URL_String
                (url.set_Scheme
                   (url.set_Host
                      (url.mkURL EmptyString EmptyString EmptyString "/article"
                         EmptyString EmptyString) "a") scheme)),
        None))
  ∧ ∃ w', @getPrerenderedPage RefLib Inputs.Do_refused Inputs.h0 Inputs.req_nohost
            Inputs.world0 = Some w'
          ∧ http.status (rw w') = 500.
Proof.
  split.
  - apply (proj1 (@host_by_priority RefLib Inputs.Do_refused Inputs.h0
                    Inputs.req_abc _ eq_refl)).
    discriminate.
  - apply (proj2 (@host_by_priority RefLib Inputs.Do_refused Inputs.h0
                    Inputs.req_nohost _ eq_refl)); [| reflexivity].
    repeat split; reflexivity.
Defined.

(** C6 on a request with the Cf-Visitor convention. *)
Lemma scheme_by_headers_witness :
  ∃ scheme sep,
    @buildApiUrl RefLib Inputs.h0 Inputs.req_cf
    = ("http://service.prerender.io/" +:+ sep
         +:+ Ref.QueryEscape (Ref.URL_String
               (url.set_Scheme
                  (url.set_Host
                     (url.mkURL EmptyString EmptyString EmptyString "/article"
                        EmptyString EmptyString) "host") scheme)),
       None)
    ∧ (scheme = "https" ↔ @declaresHTTPS RefLib Inputs.req_cf)
    ∧ (scheme = "http" ↔ ¬ @declaresHTTPS RefLib Inputs.req_cf).
Proof.
  apply (@scheme_by_headers RefLib Inputs.h0 Inputs.req_cf _ eq_refl).
  discriminate.
Defined.

(** C7 on the successful-prerender scenario. *)
Lemma outbound_url_witness :
  ∃ u scheme sep,
    Ref.ParseRequestURI "/article" = inl u
    ∧ "http://service.prerender.io/http%3A%2F%2Fhost%2Farticle"
      = "http://service.prerender.io/" +:+ sep
          +:+ Ref.QueryEscape (Ref.URL_String
                (url.set_Scheme (url.set_Host u "host") scheme))
    ∧ ((∃ t, "http://service.prerender.io/" = t +:+ "/") ∧ sep = EmptyString
       ∨ ¬ (∃ t, "http://service.prerender.io/" = t +:+ "/") ∧ sep = "/").
Proof.
  apply (@outbound_url RefLib Inputs.h0 Inputs.req_bot). reflexivity.
Defined.

(** The scenarios of the specification, run on the reference library. *)
Example scenario_http :
  @buildApiUrl RefLib Inputs.h0 Inputs.req_bot
  = ("http://service.prerender.io/http%3A%2F%2Fhost%2Farticle", None).
Proof. reflexivity. Qed.

Example scenario_cf_visitor :
  @buildApiUrl RefLib Inputs.h0 Inputs.req_cf
  = ("http://service.prerender.io/https%3A%2F%2Fhost%2Farticle", None).
Proof. reflexivity. Qed.

Example scenario_x_forwarded_proto :
  @buildApiUrl RefLib Inputs.h0 Inputs.req_xfp
  = ("http://service.prerender.io/https%3A%2F%2Fhost%2Farticle", None).
Proof. reflexivity. Qed.

Example scenario_host_header :
  @buildApiUrl RefLib Inputs.h0 Inputs.req_abc
  = ("http://service.prerender.io/http%3A%2F%2Fa%2Farticle", None).
Proof. reflexivity. Qed.

(** ** Copying a header map *)

Section copy.
Context `{GoLib}.



(** The inner loop with [Set] keeps the last value only. *)
Lemma foldl_Set_lookup (key : string) (vs : list string) (dst : http.Header)
    (k : string) :
  foldl (λ d v, http.Set_ d key v) dst vs !! k
  = if decide (k = CanonicalMIMEHeaderKey key)
    then match last vs with
         | Some v => Some [v]
         | None => dst !! k
         end
    else dst !! k.
Proof.
  induction vs as [|v vs IH] using rev_ind.
  - simpl. by case_decide.
  - rewrite foldl_snoc, last_snoc. unfold http.Set_ at 1. case_decide as Hk.
    + subst k. by rewrite lookup_insert_eq.
    + rewrite lookup_insert_ne; [| done]. by rewrite IH.
Qed.

Lemma canonical_insert (m : http.Header) (i : string) (x : list string) :
  m !! i = None → canonical (<[i:=x]> m) →
  CanonicalMIMEHeaderKey i = i ∧ canonical m.
Proof.
  intros Hi Hc. split.
  - apply (Hc i x). by rewrite lookup_insert_eq.
  - intros key vs Hkey. apply (Hc key vs).
    rewrite lookup_insert_ne; [done |]. intros ->. congruence.
Qed.


(** Copying with [Set]: a key of the source ends with the last of its
    values, alone. *)
Lemma rangeHeader_Set_lookup (src dst : http.Header) (k : string) :
  canonical src →
  rangeHeader http.Set_ src dst !! k
  = match src !! k with
    | Some vs => match last vs with
                 | Some v => Some [v]
                 | None => dst !! k
                 end
    | None => dst !! k
    end.
Proof.
  unfold rangeHeader. revert k.
  apply (map_fold_weak_ind
           (λ r m, ∀ k, canonical m →
                        r !! k = match m !! k with
                                 | Some vs => match last vs with
                                              | Some v => Some [v]
                                              | None => dst !! k
                                              end
                                 | None => dst !! k
                                 end)).
  - intros k _. by rewrite lookup_empty.
  - intros i x m r Hi IH k Hc.
    destruct (canonical_insert m i x Hi Hc) as [Hci Hcm].
    rewrite foldl_Set_lookup, Hci, (IH k Hcm). case_decide as Hk.
    + subst k. by rewrite Hi, lookup_insert_eq.
    + by rewrite lookup_insert_ne.
Qed.
End copy.

(** ** The relay *)

Section relay.
Context `{GoLib}.
Variable Do : http.Request.t → option http.Response.t * option error.

(** Runs [getPrerenderedPage] up to the result of [Do]. *)
Ltac call_Do Hb Hn Hd :=
  unfold getPrerenderedPage, seq; rewrite logf_eq; cbn [mbind option_bind];
  rewrite Hb, Hn; unfold outbound in Hd; cbv zeta in Hd |- *; rewrite Hd.

(** A failure that is not the redirect signal: the error is logged, the
    message of [http.Error] is written, the status is 500 unless a header
    went out before. *)
Lemma relay_failure (h : handler) (req1 req2 : http.Request.t) (rawurl : string)
    (resp : option http.Response.t) (err : error) (w : World) :
  buildApiUrl h req1 = (rawurl, None) →
  http.NewRequest "GET" rawurl = inl req2 →
  Do (outbound h req1 req2) = (resp, Some err) →
  ¬ (∃ t, err = t +:+ "Redirect") →
  getPrerenderedPage Do h req1 w
  = Some (mkWorld
            (http.Error "Internal server error" http.StatusInternalServerError (rw w))
            (logged w
               ++ lines h ["prerender: " +:+ Quote (URL_String (http.Request.URL req1));
                           "prerender error: " +:+ err])
            (stdout w)).
Proof.
  intros Hb Hn Hd Hr. rewrite <- HasSuffix_spec in Hr.
  apply not_true_is_false in Hr.
  call_Do Hb Hn Hd. rewrite Hr. cbn [negb].
  rewrite internalServerError_eq. cbn [rw logged stdout].
  by rewrite <- app_assoc, lines_app.
Qed.

(** The redirect signal: the headers of the response are copied with [Set],
    then status 301 and an empty body are written. *)
Lemma relay_redirect (h : handler) (req1 req2 : http.Request.t) (rawurl : string)
    (resp : http.Response.t) (err : error) (w : World) :
  buildApiUrl h req1 = (rawurl, None) →
  http.NewRequest "GET" rawurl = inl req2 →
  Do (outbound h req1 req2) = (Some resp, Some err) →
  (∃ t, err = t +:+ "Redirect") →
  getPrerenderedPage Do h req1 w
  = Some (mkWorld
            (http.Write EmptyString
               (http.WriteHeader 301
                  (http.with_Header
                     (rangeHeader http.Set_ (http.Response.Header resp)) (rw w))))
            (logged w
               ++ lines h ["prerender: " +:+ Quote (URL_String (http.Request.URL req1))])
            (stdout w)).
Proof.
  intros Hb Hn Hd Hr. rewrite <- HasSuffix_spec in Hr.
  call_Do Hb Hn Hd. rewrite Hr. reflexivity.
Qed.


(** C3, amended. When the outbound call fails with an error that does not
    end in the redirect signal, the relay logs the error on the configured
    logger, if there is one, and answers with status 500 and the body
    "Internal server error" followed by a line feed. *)
Theorem transport_failure (h : handler) (req1 req2 : http.Request.t)
    (rawurl : string) (resp : option http.Response.t) (err : error) (w : World) :
  buildApiUrl h req1 = (rawurl, None) →
  http.NewRequest "GET" rawurl = inl req2 →
  Do (outbound h req1 req2) = (resp, Some err) →
  ¬ (∃ t, err = t +:+ "Redirect") →
  http.wroteHeader (rw w) = false →
  ∃ w', getPrerenderedPage Do h req1 w = Some w'
        ∧ logged w'
          = logged w
              ++ lines h ["prerender: " +:+ Quote (URL_String (http.Request.URL req1));
                          "prerender error: " +:+ err]
        ∧ http.status (rw w') = 500
        ∧ http.body (rw w') = http.body (rw w) +:+ "Internal server error" +:+ http.LF.
Proof.
  intros Hb Hn Hd Hr Hw. eexists. split; [by apply (relay_failure h req1 req2 rawurl resp) |].
  cbn [rw logged]. split; [done |].
  destruct (Error_unsent "Internal server error" http.StatusInternalServerError
              (rw w) Hw) as (Hs & Hbody & _).
  split; [exact Hs | exact Hbody].
Qed.
End relay.

(** C3 as stated fails: the rendering service cannot be reached, the error
    is not the redirect signal, and the client is sent a body. *)
Lemma transport_failure_writes_body :
  (∀ req2, ∃ err,
     Inputs.Do_refused req2 = (None, Some err)
     ∧ Strings.HasSuffix err "Redirect" = false)
  ∧ ∃ w', @getPrerenderedPage RefLib Inputs.Do_refused Inputs.h0 Inputs.req_bot
            Inputs.world0 = Some w'
          ∧ http.status (rw w') = 500
          ∧ http.body (rw w') = "Internal server error" +:+ http.LF
          ∧ http.body (rw w') ≠ EmptyString.
Proof.
  split; [intros req2; by eexists |].
  eexists. split; [vm_compute; reflexivity |]. cbn [rw http.status http.body].
  split; [reflexivity |]. split; [reflexivity |]. discriminate.
Qed.

(** C3, amended, on a handler with a logger. *)
Lemma transport_failure_witness :
  ∃ w', @getPrerenderedPage RefLib Inputs.Do_refused Inputs.h1 Inputs.req_bot
          Inputs.world0 = Some w'
        ∧ logged w'
          = [ (Inputs.stderr, "prerender: " +:+ Ref.Quote "/article");
              (Inputs.stderr,
               "prerender error: Get: dial tcp 10.0.0.1:80: connect: connection refused") ]
        ∧ http.status (rw w') = 500
        ∧ http.body (rw w') = "Internal server error" +:+ http.LF.
Proof.
  refine (@transport_failure RefLib Inputs.Do_refused Inputs.h1 Inputs.req_bot
            (http.Request.mk "GET"
               (url.mkURL "http" EmptyString "service.prerender.io"
                  "/http%3A%2F%2Fhost%2Farticle" EmptyString EmptyString)
               ∅ "service.prerender.io" EmptyString)
            "http://service.prerender.io/http%3A%2F%2Fhost%2Farticle" None
            "Get: dial tcp 10.0.0.1:80: connect: connection refused"
            Inputs.world0 eq_refl eq_refl eq_refl _ eq_refl).
  rewrite <- HasSuffix_spec. by vm_compute.
Defined.

(** C2 on a 302 with a Location and two cookies: status 301, an empty body
    and the Location reach the client, of the two cookies only the last. *)
Lemma redirect_keeps_last_value :
  http.Response.Header Inputs.redirect302 !! "Set-Cookie" = Some ["a=1"; "b=2"]
  ∧ ∃ w', @getPrerenderedPage RefLib Inputs.Do_redirect Inputs.h0 Inputs.req_bot
            Inputs.world0 = Some w'
          ∧ http.status (rw w') = 301
          ∧ http.body (rw w') = EmptyString
          ∧ http.sent (rw w') !! "Location" = Some ["https://example.com/foo"]
          ∧ http.sent (rw w') !! "Set-Cookie" = Some ["b=2"].
Proof.
  split; [reflexivity |].
  eexists. split; [vm_compute; reflexivity |].
  split; [reflexivity |]. split; [reflexivity |]. split; reflexivity.
Qed.

(** C4 on a 200 with a page: status and body reach the client, the headers
    of the rendering service are added to the map after the header went
    out and do not. *)
Lemma page_headers_not_sent :
  ∃ w', @getPrerenderedPage RefLib Inputs.Do_page Inputs.h0 Inputs.req_bot
          Inputs.world0 = Some w'
        ∧ http.status (rw w') = 200
        ∧ http.body (rw w') = "<html></html>"
        ∧ http.live (rw w') = http.Response.Header Inputs.page200
        ∧ http.sent (rw w') = ∅
        ∧ http.sent (rw w') ≠ http.Response.Header Inputs.page200.
Proof.
  eexists. split; [vm_compute; reflexivity |].
  split; [reflexivity |]. split; [reflexivity |]. split; [reflexivity |].
  split; [reflexivity |]. intros Heq.
  apply (f_equal (λ m : gmap string (list string), m !! "Content-Type")) in Heq.
  vm_compute in Heq. discriminate.
Qed.

Section relay_general.
Context `{GoLib}.
Variable Do : http.Request.t → option http.Response.t * option error.

(** X10. Every redirect signal, whatever the status of the response it
    comes with, is answered with status 301 and an empty body; a header of
    the response reaches the client with the last of its values, in place
    of what the client response held under that name, and the other headers
    of the client response stay. *)
Lemma redirect_collapse (h : handler) (req1 req2 : http.Request.t)
    (rawurl : string) (resp : http.Response.t) (err : error) (w : World) :
  buildApiUrl h req1 = (rawurl, None) →
  http.NewRequest "GET" rawurl = inl req2 →
  Do (outbound h req1 req2) = (Some resp, Some err) →
  (∃ t, err = t +:+ "Redirect") →
  http.wroteHeader (rw w) = false →
  canonical (http.Response.Header resp) →
  ∃ w', getPrerenderedPage Do h req1 w = Some w'
        ∧ http.status (rw w') = 301
        ∧ http.body (rw w') = http.body (rw w)
        ∧ ∀ key,
            http.sent (rw w') !! key
            = match http.Response.Header resp !! key with
              | Some vs => match last vs with
                           | Some v => Some [v]
                           | None => http.live (rw w) !! key
                           end
              | None => http.live (rw w) !! key
              end.
Proof.
  intros Hb Hn Hd Hr Hw Hc. eexists.
  split; [by apply (relay_redirect Do h req1 req2 rawurl resp err) |].
  cbn [rw]. unfold http.Write, http.WriteHeader, http.with_Header.
  cbn [http.wroteHeader http.live http.status http.sent http.body].
  rewrite Hw. cbn [http.wroteHeader http.live http.status http.sent http.body].
  split; [done |]. split; [apply append_empty_r |].
  intros key. by apply rangeHeader_Set_lookup.
Qed.

End relay_general.

(** ** The constructor and the dispatch *)

Section dispatch.
Variable DefaultServeMux : AppHandler.
Variable Getenv : string → string.

Lemma exported_sub (opt : Option) (h : handler) :
  exported opt → sub (opt h) = sub h.
Proof. by intros []. Qed.

Lemma options_sub (options : list Option) (h : handler) :
  Forall exported options → sub (foldl (λ h option, option h) h options) = sub h.
Proof.
  intros Ho. revert h. induction Ho as [|option options Hx _ IH]; intros h; simpl.
  - done.
  - by rewrite IH, exported_sub.
Qed.

Lemma Handler_sub (app : option AppHandler) (options : list Option) :
  Forall exported options →
  sub (Handler DefaultServeMux Getenv app options)
  = Some (default DefaultServeMux app).
Proof.
  intros Ho. unfold Handler. rewrite (options_sub _ _ Ho).
  destruct (nonempty (Getenv "PRERENDER_SERVICE_URL")),
    (nonempty (Getenv "PRERENDER_TOKEN")),
    (nonempty (Getenv "PRERENDER_USERNAME") || nonempty (Getenv "PRERENDER_PASSWORD"));
    by destruct app.
Qed.

(** C10. Given a nil application handler, [Handler] puts the default serve
    mux in its place, whatever the environment and the options are, and
    the handler it returns dispatches every pass-through request to the
    default serve mux: never to a nil handler. *)
Theorem nil_app_is_default_mux `{GoLib}
    (Do : http.Request.t → option http.Response.t * option error)
    (options : list Option) (req : http.Request.t) (w : World) :
  Forall exported options →
  sub (Handler DefaultServeMux Getenv None options) = Some DefaultServeMux
  ∧ ServeHTTP Do (Handler DefaultServeMux Getenv None options) req w
    = if shouldShowPrerenderedPage (Handler DefaultServeMux Getenv None options) req
      then getPrerenderedPage Do (Handler DefaultServeMux Getenv None options) req w
      else Some (DefaultServeMux req w).
Proof.
  intros Ho. pose proof (Handler_sub None options Ho) as Hs. split; [done |].
  unfold ServeHTTP. rewrite Hs. by destruct (shouldShowPrerenderedPage _ _).
Qed.
End dispatch.

(** C10 on the pass-through scenario, with a logger option. *)
Lemma nil_app_is_default_mux_witness :
  sub Inputs.h1 = Some Inputs.notFound
  ∧ @ServeHTTP RefLib Inputs.Do_refused Inputs.h1 Inputs.req_home Inputs.world0
    = Some (Inputs.notFound Inputs.req_home Inputs.world0).
Proof.
  refine (@nil_app_is_default_mux Inputs.notFound Inputs.noenv RefLib
            Inputs.Do_refused [Logger (Some Inputs.stderr)] Inputs.req_home
            Inputs.world0 _).
  repeat constructor.
Defined.

(** ** Further properties of the classifier *)

Lemma all_bytes_app (p : ascii → bool) (s t : string) :
  Ref.all_bytes p (s +:+ t) = Ref.all_bytes p s && Ref.all_bytes p t.
Proof.
  induction s as [|c s IH]; [done |].
  change (p c && Ref.all_bytes p (s +:+ t)
          = p c && Ref.all_bytes p s && Ref.all_bytes p t).
  by rewrite IH, andb_assoc.
Qed.

(** A string without capitals contains no name with one. *)
Lemma Contains_capital (s name : string) :
  noUpper s = true → noUpper name = false → Strings.Contains s name = false.
Proof.
  intros Hs Hn. apply not_true_is_false. intros (pre & post & ->)%Contains_spec.
  unfold noUpper in *. rewrite !all_bytes_app, Hn, andb_false_r in Hs.
  discriminate.
Qed.

Lemma containsAny_capitals (s : string) (names : list string) :
  noUpper s = true →
  containsAny s names = containsAny s (List.filter noUpper names).
Proof.
  intros Hs. induction names as [|name names IH]; [done |]. simpl.
  destruct (noUpper name) eqn:Hn; simpl.
  - by rewrite IH.
  - by rewrite (Contains_capital s name Hs Hn).
Qed.

Lemma lower_not_upper (c : ascii) : Ref.is_upper (Ref.lower c) = false.
Proof. destruct c as [[] [] [] [] [] [] [] []]; reflexivity. Qed.

(** The reference [ToLower] leaves no capital. *)
Lemma Ref_lowerCasing : @lowerCasing RefLib.
Proof.
  intros s. unfold noUpper. simpl. induction s as [|c s IH]; [done |].
  change (negb (Ref.is_upper (Ref.lower c))
          && Ref.all_bytes (λ c, negb (Ref.is_upper c)) (Ref.ToLower s) = true).
  by rewrite lower_not_upper, IH.
Qed.

Section classifier_more.
Context `{GoLib}.

(** The classifier as one boolean expression. *)
Lemma shouldShowPrerenderedPage_bool (h : handler) (req : http.Request.t) :
  shouldShowPrerenderedPage h req
  = nonempty (http.Request.UserAgent req)
    && String.eqb (http.Request.Method req) "GET"
    && (match Query (http.Request.URL req) !! "_escaped_fragment_" with
        | Some (_ :: _) => true
        | _ => false
        end
        || isBot h (http.Request.UserAgent req)
        || nonempty (http.Get (http.Request.Header req) "X-Bufferbot"))
    && negb (containsIgnoredExtension h (url.Path (http.Request.URL req))).
Proof.
  unfold shouldShowPrerenderedPage, nonempty, ESCAPED_FRAGMENT, X_BUFFERBOT.
  destruct (String.eqb (http.Request.UserAgent req) _); [done |].
  destruct (String.eqb (http.Request.Method req) _); [| done].
  destruct (containsIgnoredExtension _ _);
    destruct (isBot _ _);
    destruct (String.eqb (http.Get _ _) _);
    by destruct (Query _ !! _) as [[|? ?]|].
Qed.

(** X1. A request is intercepted exactly when its User-Agent is not empty,
    its method is GET, one of the three reasons to prerender holds (the
    escaped fragment, a bot name in the lower-cased User-Agent, a non-empty
    buffer-bot header) and its lower-cased path contains no ignored
    extension. *)
Theorem intercepted_iff (h : handler) (req : http.Request.t) :
  shouldShowPrerenderedPage h req = true
  ↔ http.Request.UserAgent req ≠ EmptyString
    ∧ http.Request.Method req = "GET"
    ∧ wantsPrerender h req
    ∧ ¬ hasIgnoredExtension h req.
Proof.
  rewrite shouldShowPrerenderedPage_bool, !andb_true_iff, !orb_true_iff.
  rewrite negb_true_iff, <- not_true_iff_false.
  rewrite !nonempty_true, String.eqb_eq, isBot_spec, containsIgnoredExtension_spec.
  unfold wantsPrerender, hasEscapedFragment.
  assert (match Query (http.Request.URL req) !! "_escaped_fragment_" with
          | Some (_ :: _) => true
          | _ => false
          end = true
          ↔ ∃ value values,
              Query (http.Request.URL req) !! "_escaped_fragment_"
              = Some (value :: values)) as ->.
  { destruct (Query _ !! _) as [[|v q]|]; split;
      try done; try (intros (? & ? & ?); done). by exists v, q. }
  tauto.
Qed.

(** X2. When [strings.ToLower] leaves no capital, a configured bot name or
    ignored extension that holds an upper-case ASCII letter never matches:
    the handler classifies as if the name were not configured. *)
Theorem capital_names_never_match (h : handler) (req : http.Request.t) :
  lowerCasing →
  shouldShowPrerenderedPage h req
  = shouldShowPrerenderedPage
      (IgnoredExtensions (List.filter noUpper (ignoredExtension h))
         (Bots (List.filter noUpper (botUserAgents h)) h))
      req.
Proof.
  intros Hl. rewrite !shouldShowPrerenderedPage_bool.
  unfold isBot, containsIgnoredExtension. cbn [botUserAgents ignoredExtension
    Bots IgnoredExtensions].
  by rewrite <- !containsAny_capitals.
Qed.

(** X3. An empty string among the ignored extensions makes the handler pass
    every request through; an empty string among the bot names makes it
    intercept every GET request that has a User-Agent and no ignored
    extension in its path. *)
Theorem empty_name_matches_all (h : handler) (req : http.Request.t) :
  (EmptyString ∈ ignoredExtension h → shouldShowPrerenderedPage h req = false)
  ∧ (EmptyString ∈ botUserAgents h →
     http.Request.UserAgent req ≠ EmptyString →
     http.Request.Method req = "GET" →
     ¬ hasIgnoredExtension h req →
     shouldShowPrerenderedPage h req = true).
Proof.
  split.
  - intros Hin. apply not_true_is_false. rewrite shouldShowPrerenderedPage_bool.
    rewrite !andb_true_iff, negb_true_iff.
    intros (_ & Hext). apply not_true_iff_false in Hext. apply Hext.
    apply containsAny_spec.
    exists EmptyString, (ToLower (url.Path (http.Request.URL req))), EmptyString.
    split; [done |]. by rewrite append_empty_r.
  - intros Hin Hua Hm Hext. rewrite shouldShowPrerenderedPage_bool.
    rewrite <- containsIgnoredExtension_spec in Hext.
    apply not_true_is_false in Hext. rewrite Hext.
    apply nonempty_true in Hua. rewrite Hua, Hm.
    assert (isBot h (http.Request.UserAgent req) = true) as ->; [| by rewrite orb_true_r].
    apply containsAny_spec.
    exists EmptyString, (ToLower (http.Request.UserAgent req)), EmptyString.
    split; [done |]. by rewrite append_empty_r.
Qed.
End classifier_more.

(** X2 on a handler configured with Twitterbot and .PNG, capitals included:
    it decides like a handler with no bot name and no extension. *)
Lemma capital_names_never_match_witness :
  @shouldShowPrerenderedPage RefLib Inputs.h_capitals Inputs.req_bot
  = @shouldShowPrerenderedPage RefLib
      (IgnoredExtensions [] (Bots [] Inputs.h_capitals)) Inputs.req_bot.
Proof.
  exact (@capital_names_never_match RefLib Inputs.h_capitals Inputs.req_bot
           Ref_lowerCasing).
Defined.

(** X3 on an empty extension and on an empty bot name. *)
Lemma empty_name_matches_all_witness :
  @shouldShowPrerenderedPage RefLib Inputs.h_empty_ext Inputs.req_bot = false
  ∧ @shouldShowPrerenderedPage RefLib Inputs.h_empty_bot Inputs.req_home = true.
Proof.
  split.
  - apply (proj1 (@empty_name_matches_all RefLib Inputs.h_empty_ext Inputs.req_bot)).
    vm_compute. repeat constructor.
  - apply (proj2 (@empty_name_matches_all RefLib Inputs.h_empty_bot Inputs.req_home)).
    + vm_compute. repeat constructor.
    + by vm_compute.
    + reflexivity.
    + rewrite <- (@containsIgnoredExtension_spec RefLib). by vm_compute.
Defined.

(** ** Further properties of the URL builder *)

Section builder_more.
Context `{GoLib}.

(** X4. When the request cannot be turned into an outbound request (its
    request URI does not parse, no host is found, or [http.NewRequest]
    rejects the URL), the rendering service is not called: whatever it would
    answer, the error is logged and the client is answered with status 500
    and the message of [http.Error]. *)
Theorem build_failure_answered (h : handler) (req : http.Request.t)
    (err : error) (w : World) :
  buildFailure h req err →
  ∃ w', (∀ Do, getPrerenderedPage Do h req w = Some w')
        ∧ http.body (rw w') = http.body (rw w) +:+ "Internal server error" +:+ http.LF
        ∧ (http.wroteHeader (rw w) = false → http.status (rw w') = 500)
        ∧ logged w'
          = logged w
              ++ lines h ["prerender: " +:+ Quote (URL_String (http.Request.URL req));
                          "prerender error: " +:+ err].
Proof.
  intros Hf.
  exists (mkWorld
            (http.Error "Internal server error" http.StatusInternalServerError (rw w))
            (logged w
               ++ lines h ["prerender: " +:+ Quote (URL_String (http.Request.URL req));
                           "prerender error: " +:+ err])
            (stdout w)).
  split; [| split; [| split]].
  - intros Do. destruct Hf as [[rawurl Hb] | (rawurl & Hb & Hn)].
    + by apply (getPrerenderedPage_build_error Do h req rawurl).
    + unfold getPrerenderedPage, seq. rewrite logf_eq. cbn [mbind option_bind].
      rewrite Hb, Hn, internalServerError_eq. cbn [rw logged stdout].
      by rewrite <- app_assoc, lines_app.
  - apply Error_body.
  - intros Hw. exact (proj1 (Error_unsent _ _ _ Hw)).
  - done.
Qed.

(** X5. A forwarded protocol written https, without the comma, does not
    make the scheme https: with no Cf-Visitor literal the URL is rebuilt with
    http. *)
Theorem forwarded_proto_needs_comma (h : handler) (req : http.Request.t)
    (u : url.URL) :
  ParseRequestURI (http.Request.RequestURI req) = inl u →
  hostByPriority req ≠ EmptyString →
  http.Get (http.Request.Header req) "X-Forwarded-Proto" = "https" →
  ¬ (∃ pre post,
       http.Get (http.Request.Header req) "Cf-Visitor" = pre +:+ CF_HTTPS +:+ post) →
  ∃ sep,
    buildApiUrl h req
    = (prerenderServiceURL h +:+ sep
         +:+ QueryEscape (URL_String
               (url.set_Scheme (url.set_Host u (hostByPriority req)) "http")),
       None).
Proof.
  intros Hparse Hhost Hx Hcf. rewrite buildApiUrl_unfold, Hparse.
  apply String.eqb_neq in Hhost. rewrite Hhost.
  rewrite <- Contains_spec in Hcf. apply not_true_is_false in Hcf.
  unfold CF_VISITOR, X_FORWARDED_PROTO in *. rewrite Hcf, Hx.
  change (Strings.HasPrefix "https" X_FORWARDED_HTTPS) with false. cbn [orb].
  destruct (negb _); [exists "/" | exists EmptyString]; by rewrite ?append_assoc.
Qed.

(** X6. The builder takes path and query from the request URI and never
    from [req.URL]: a request whose [URL] was rewritten, its host apart,
    gives the same outbound URL.  The classifier reads [req.URL] and never
    the request URI or the connection-level host. *)
Theorem request_parts_read (h : handler) (req : http.Request.t) :
  (∀ u', url.Host u' = url.Host (http.Request.URL req) →
         buildApiUrl h (with_URL req u') = buildApiUrl h req)
  ∧ (∀ host uri,
       shouldShowPrerenderedPage h
         (http.Request.mk (http.Request.Method req) (http.Request.URL req)
            (http.Request.Header req) host uri)
       = shouldShowPrerenderedPage h req).
Proof.
  split.
  - intros u' Hu. unfold buildApiUrl, with_URL. cbn [http.Request.RequestURI
      http.Request.Header http.Request.URL http.Request.Host]. by rewrite Hu.
  - intros host uri. reflexivity.
Qed.
End builder_more.

(** X4 on a request without a request URI. *)
Lemma build_failure_answered_witness :
  ∃ w', (∀ Do, @getPrerenderedPage RefLib Do Inputs.h1 Inputs.req_nouri
                 Inputs.world0 = Some w')
        ∧ http.body (rw w') = "Internal server error" +:+ http.LF
        ∧ (http.wroteHeader (rw Inputs.world0) = false → http.status (rw w') = 500)
        ∧ logged w'
          = [ (Inputs.stderr, "prerender: " +:+ Ref.Quote "/article");
              (Inputs.stderr, "prerender error: parse: empty url") ].
Proof.
  refine (@build_failure_answered RefLib Inputs.h1 Inputs.req_nouri
            "parse: empty url" Inputs.world0 _).
  left. by exists EmptyString.
Defined.

(** X5 on such a request. *)
Lemma forwarded_proto_needs_comma_witness :
  ∃ sep,
    @buildApiUrl RefLib Inputs.h0 Inputs.req_xfp_plain
    = ("http://service.prerender.io/" +:+ sep
         +:+ Ref.QueryEscape (Ref.URL_String
               (url.mkURL "http" EmptyString "host" "/article" EmptyString
                  EmptyString)),
       None).
Proof.
  refine (@forwarded_proto_needs_comma RefLib Inputs.h0 Inputs.req_xfp_plain _
            eq_refl _ eq_refl _).
  - discriminate.
  - rewrite <- Contains_spec. by vm_compute.
Defined.

(** X6 on a request whose path a middleware stripped to [/]. *)
Lemma request_parts_read_witness :
  @buildApiUrl RefLib Inputs.h0
    (with_URL Inputs.req_bot
       (url.mkURL EmptyString EmptyString EmptyString "/" EmptyString EmptyString))
  = @buildApiUrl RefLib Inputs.h0 Inputs.req_bot.
Proof.
  apply (proj1 (@request_parts_read RefLib Inputs.h0 Inputs.req_bot)).
  reflexivity.
Defined.

(** ** Further properties of the relay *)

Section relay_more.
Context `{GoLib}.


(** X8. The outbound request is a GET that carries the User-Agent of the
    inbound request, the token header exactly when a token is configured,
    basic credentials exactly when a username or a password is configured,
    and no other header. *)
Theorem outbound_headers (h : handler) (req1 req2 : http.Request.t)
    (rawurl : string) :
  distinctKeys →
  http.NewRequest "GET" rawurl = inl req2 →
  http.Request.Method (outbound h req1 req2) = "GET"
  ∧ ∀ key,
      http.Request.Header (outbound h req1 req2) !! key
      = if decide (key = CanonicalMIMEHeaderKey "User-Agent")
        then Some [http.Request.UserAgent req1]
        else if decide (key = CanonicalMIMEHeaderKey "X-Prerender-Token")
        then (if nonempty (prerenderToken h) then Some [prerenderToken h] else None)
        else if decide (key = CanonicalMIMEHeaderKey "Authorization")
        then (if nonempty (prerenderUsername h) || nonempty (prerenderPassword h)
              then Some ["Basic " +:+ basicAuth (prerenderUsername h)
                                        (prerenderPassword h)]
              else None)
        else None.
Proof.
  intros (Hut & Hua & Hta) Hn. unfold http.NewRequest in Hn.
  destruct (Parse rawurl) as [u | e]; [| discriminate]. injection Hn as <-.
  unfold outbound, http.Request.SetBasicAuth, http.Request.Header_Set, http.Set_,
    variables.x_PRERENDER_TOKEN.
  destruct (nonempty (prerenderToken h)),
    (nonempty (prerenderUsername h) || nonempty (prerenderPassword h));
    cbn [http.Request.Method http.Request.Header]; (split; [done |]); intros key;
    rewrite ?lookup_insert, ?lookup_empty; repeat case_decide; congruence.
Qed.

End relay_more.


Lemma Ref_distinctKeys : @distinctKeys RefLib.
Proof. repeat split; vm_compute; discriminate. Qed.

(** X8 on a handler with a token and credentials. *)
Lemma outbound_headers_witness :
  let req2 := http.Request.mk "GET"
                (url.mkURL "http" EmptyString "service.prerender.io"
                   "/http%3A%2F%2Fhost%2Farticle" EmptyString EmptyString)
                ∅ "service.prerender.io" EmptyString in
  http.Request.Method (@outbound RefLib Inputs.h_auth Inputs.req_bot req2) = "GET"
  ∧ ∀ key,
      http.Request.Header (@outbound RefLib Inputs.h_auth Inputs.req_bot req2) !! key
      = if decide (key = "User-Agent") then Some ["Twitterbot/1.0"]
        else if decide (key = "X-Prerender-Token") then Some ["secret"]
        else if decide (key = "Authorization") then Some ["Basic user:pass"]
        else None.
Proof.
  refine (@outbound_headers RefLib Inputs.h_auth Inputs.req_bot _
            "http://service.prerender.io/http%3A%2F%2Fhost%2Farticle"
            Ref_distinctKeys eq_refl).
Defined.


(** The header maps of the examples have canonical keys. *)
Lemma canonical_redirect302 :
  @canonical RefLib (http.Response.Header Inputs.redirect302).
Proof.
  intros key vs Hk. cbn [http.Response.Header Inputs.redirect302] in Hk.
  apply lookup_insert_Some in Hk as [[<- _] | [_ Hk]]; [reflexivity |].
  apply lookup_singleton_Some in Hk as [<- _]. reflexivity.
Qed.


(** X10 on the 302 with a Location and two cookies. *)
Lemma redirect_collapse_witness :
  ∃ w', @getPrerenderedPage RefLib Inputs.Do_redirect Inputs.h0 Inputs.req_bot
          Inputs.world0 = Some w'
        ∧ http.status (rw w') = 301
        ∧ http.body (rw w') = EmptyString
        ∧ ∀ key,
            http.sent (rw w') !! key
            = match http.Response.Header Inputs.redirect302 !! key with
              | Some vs => match last vs with
                           | Some v => Some [v]
                           | None => None
                           end
              | None => None
              end.
Proof.
  refine (@redirect_collapse RefLib Inputs.Do_redirect Inputs.h0 Inputs.req_bot
            (http.Request.mk "GET"
               (url.mkURL "http" EmptyString "service.prerender.io"
                  "/http%3A%2F%2Fhost%2Farticle" EmptyString EmptyString)
               ∅ "service.prerender.io" EmptyString)
            "http://service.prerender.io/http%3A%2F%2Fhost%2Farticle"
            Inputs.redirect302 _ Inputs.world0
            eq_refl eq_refl eq_refl _ eq_refl canonical_redirect302).
  rewrite <- HasSuffix_spec. by vm_compute.
Defined.


(** ** The relay always answers *)






Section answers.
Context `{GoLib}.









End answers.

Section serve.
Context `{GoLib}.
Variable DefaultServeMux : AppHandler.
Variable Getenv : string → string.

End serve.




(** ** Further properties of the constructor *)

Section constructor_more.
Variable DefaultServeMux : AppHandler.
Variable Getenv : string → string.

Lemma foldl_keeps {A : Type} (field : handler → A) (options : list Option)
    (h : handler) :
  Forall (keeps field) options →
  field (foldl (λ h option, option h) h options) = field h.
Proof.
  intros Ho. revert h. induction Ho as [|o options Hk _ IH]; intros h; simpl.
  - done.
  - by rewrite IH, Hk.
Qed.

(** X14. Options are applied in the order given, after the defaults and the
    environment: a field of the handler is what the last option that
    touches it made of it. *)
Theorem option_precedence {A : Type} (field : handler → A)
    (app : option AppHandler) (before after : list Option) (o : Option) :
  Forall (keeps field) after →
  field (Handler DefaultServeMux Getenv app (before ++ o :: after))
  = field (o (Handler DefaultServeMux Getenv app before)).
Proof.
  intros Ha. unfold Handler. cbv zeta.
  rewrite foldl_app. cbn [foldl]. by rewrite foldl_keeps.
Qed.

(** X15. Without an option that touches them, the settings of a handler are:
    the service URL of the environment if it is not empty, else the default
    one; token, username and password as the environment has them, empty
    when unset, a password alone included; the two default lists. *)
Theorem environment_settings (app : option AppHandler) (options : list Option) :
  (Forall (keeps prerenderServiceURL) options →
   prerenderServiceURL (Handler DefaultServeMux Getenv app options)
   = if nonempty (Getenv "PRERENDER_SERVICE_URL")
     then Getenv "PRERENDER_SERVICE_URL" else "http://service.prerender.io/")
  ∧ (Forall (keeps prerenderToken) options →
     prerenderToken (Handler DefaultServeMux Getenv app options)
     = Getenv "PRERENDER_TOKEN")
  ∧ (Forall (keeps prerenderUsername) options →
     prerenderUsername (Handler DefaultServeMux Getenv app options)
     = Getenv "PRERENDER_USERNAME")
  ∧ (Forall (keeps prerenderPassword) options →
     prerenderPassword (Handler DefaultServeMux Getenv app options)
     = Getenv "PRERENDER_PASSWORD")
  ∧ (Forall (keeps botUserAgents) options →
     botUserAgents (Handler DefaultServeMux Getenv app options)
     = variables.crawlerUserAgents)
  ∧ (Forall (keeps ignoredExtension) options →
     ignoredExtension (Handler DefaultServeMux Getenv app options)
     = variables.extensionsToIgnore).
Proof.
  unfold Handler. cbv zeta.
  repeat split; intros Ho; rewrite (foldl_keeps _ _ _ Ho).
  all: destruct (nonempty (Getenv "PRERENDER_SERVICE_URL")) eqn:E1,
         (nonempty (Getenv "PRERENDER_TOKEN")) eqn:E2,
         (nonempty (Getenv "PRERENDER_USERNAME")) eqn:E3,
         (nonempty (Getenv "PRERENDER_PASSWORD")) eqn:E4.
  all: cbn [orb prerenderServiceURL prerenderToken prerenderUsername
            prerenderPassword botUserAgents ignoredExtension
            Bots IgnoredExtensions ServiceURL ServiceToken ServiceAuth].
  all: try reflexivity.
  all: symmetry; by apply nonempty_false.
Qed.
End constructor_more.

(** X14: of two service URLs the later one counts, a logger option after
    them changes nothing, and the environment is overridden. *)
Lemma option_precedence_witness :
  prerenderServiceURL
    (Handler Inputs.notFound Inputs.env1 None
       ([ServiceURL "http://a/"] ++ ServiceURL "http://b/"
          :: [Logger (Some Inputs.stderr)]))
  = "http://b/".
Proof.
  refine (@option_precedence Inputs.notFound Inputs.env1 string prerenderServiceURL
            None [ServiceURL "http://a/"] [Logger (Some Inputs.stderr)]
            (ServiceURL "http://b/") _).
  constructor; [by intros h | constructor].
Defined.

(** X15 on an environment with a service URL, a token and a password. *)
Lemma environment_settings_witness :
  prerenderServiceURL
    (Handler Inputs.notFound Inputs.env1 None [Logger (Some Inputs.stderr)])
  = "http://localhost:3000"
  ∧ prerenderPassword
      (Handler Inputs.notFound Inputs.env1 None [Logger (Some Inputs.stderr)])
    = "envpass".
Proof.
  pose proof (@environment_settings Inputs.notFound Inputs.env1 None
                [Logger (Some Inputs.stderr)]) as (Hu & _ & _ & Hp & _).
  split; [apply Hu | apply Hp]; (constructor; [by intros h | constructor]).
Defined.
